(** * AddResourceModal: resource availability and allocation submission

    A shallow embedding of [src/components/projects/AddResourceModal.tsx]:
    the availability computation done inside [fetchResources], the
    selection effect that follows [form.watch("resourceId")], the
    [FormSchema] and the [onSubmit] handler.

    The numbers of the source are IEEE 754 doubles.  The module
    [Binary64] is the availability computation with that arithmetic
    (rounded sums, differences and products, signed zeros, infinities and
    [NaN]); the values it computes and the label it assigns are
    characterised there.  The definitions over exact rationals ([Q], with
    [NaN], [null] and [undefined]) idealise the numbers.  They carry what
    rests on comparisons and on the coercions [x || y], [x > 0] and
    [Number(x)] rather than on how a sum rounds: which allocations count,
    what the filter keeps, and the component around the computation
    (selection, schema, submission). *)

From Stdlib Require Import List String Bool Arith ZArith QArith Lqa Lia SpecFloat.
From Stdlib Require Import Permutation.
Import ListNotations.

Local Open Scope Q_scope.
Local Open Scope string_scope.

(** ** JavaScript values that reach the numeric code *)

Module Js.

Inductive value : Type :=
| Null
| Undefined
| NaN
| Num (q : Q).

(** ToNumber: [null] is [0], [undefined] is [NaN]. [None] stands for [NaN]. *)
Definition to_number (v : value) : option Q :=
  match v with
  | Null => Some 0
  | Undefined => None
  | NaN => None
  | Num q => Some q
  end.

(** ToBoolean: [null], [undefined], [NaN] and [0] are falsy. *)
Definition truthy (v : value) : bool :=
  match v with
  | Num q => negb (Qeq_bool q 0)
  | _ => false
  end.

(** [a || b] *)
Definition or_else (a b : value) : value :=
  if truthy a then a else b.

Definition arith (op : Q -> Q -> Q) (a b : value) : value :=
  match to_number a, to_number b with
  | Some x, Some y => Num (op x y)
  | _, _ => NaN
  end.

(** [a + b], [a - b], [a * b] on operands none of which is a string. *)
Definition add : value -> value -> value := arith Qplus.
Definition sub : value -> value -> value := arith Qminus.
Definition mul : value -> value -> value := arith Qmult.

Definition Qlt_bool (x y : Q) : bool := negb (Qle_bool y x).

(** A comparison with [NaN] on either side is [false]. *)
Definition compare (rel : Q -> Q -> bool) (a b : value) : bool :=
  match to_number a, to_number b with
  | Some x, Some y => rel x y
  | _, _ => false
  end.

Definition le : value -> value -> bool := compare Qle_bool.
Definition lt : value -> value -> bool := compare Qlt_bool.
Definition gt (a b : value) : bool := lt b a.

(** A value that is a number other than [NaN]. *)
Definition is_num (v : value) : Prop := exists q, v = Num q.

End Js.

Import Js.

(** ** Data model *)

(** A row of [resources], with the optional fields [allocated] and
    [available] that [fetchResources] fills in ([Undefined] when absent). *)
Module Resource.
Record t : Type := mk {
  id : string;
  name : string;
  type : string;
  unit : string;
  quantity : value;
  cost : value;
  returnable : bool;
  status : string;
  allocated : value;
  available : value
}.
End Resource.

(** A row of [resource_allocations]. *)
Module Allocation.
Record t : Type := mk {
  id : string;
  project_id : string;
  resource_id : string;
  quantity : value;
  consumed : bool
}.
End Allocation.

(** ** The availability computation of [fetchResources] *)

(** [allocationsData.filter(alloc => alloc.resource_id === resource.id && !alloc.consumed)] *)
Definition references (resource : Resource.t) (alloc : Allocation.t) : bool :=
  String.eqb (Allocation.resource_id alloc) (Resource.id resource)
  && negb (Allocation.consumed alloc).

Definition allocations (resource : Resource.t) (allocationsData : list Allocation.t)
  : list Allocation.t :=
  filter (references resource) allocationsData.

(** [allocations.reduce((sum, alloc) => sum + (alloc.quantity || 0), 0)] *)
Definition reduce_quantity (l : list Allocation.t) (init : value) : value :=
  fold_left (fun sum alloc => add sum (or_else (Allocation.quantity alloc) (Num 0)))
            l init.

Definition allocatedQuantity (resource : Resource.t) (allocationsData : list Allocation.t)
  : value :=
  reduce_quantity (allocations resource allocationsData) (Num 0).

(** [resource.quantity - allocatedQuantity] *)
Definition availableQty (resource : Resource.t) (allocationsData : list Allocation.t)
  : value :=
  sub (Resource.quantity resource) (allocatedQuantity resource allocationsData).

(** The [if / else if / else] that assigns [status]. *)
Definition status_of (availableQty quantity : value) : string :=
  if le availableQty (Num 0) then "Out of Stock"
  else if lt availableQty (mul quantity (Num 0.2)) then "Low Stock"
  else "Available".

(** [{ ...resource, allocated: allocatedQuantity, available: availableQty, status }]:
    a new object with the fields of [resource], three of them overridden. *)
Definition annotate (resource : Resource.t) (allocatedQuantity : value) : Resource.t :=
  let availableQty := sub (Resource.quantity resource) allocatedQuantity in
  {| Resource.id := Resource.id resource;
     Resource.name := Resource.name resource;
     Resource.type := Resource.type resource;
     Resource.unit := Resource.unit resource;
     Resource.quantity := Resource.quantity resource;
     Resource.cost := Resource.cost resource;
     Resource.returnable := Resource.returnable resource;
     Resource.status := status_of availableQty (Resource.quantity resource);
     Resource.allocated := allocatedQuantity;
     Resource.available := availableQty |}.

(** The callback of [resourcesData.map]. *)
Definition withAvailability (allocationsData : list Allocation.t) (resource : Resource.t)
  : Resource.t :=
  annotate resource (allocatedQuantity resource allocationsData).

Definition resourcesWithAvailability
  (resourcesData : list Resource.t) (allocationsData : list Allocation.t)
  : list Resource.t :=
  map (withAvailability allocationsData) resourcesData.

(** [resourcesWithAvailability.filter(resource => resource.available > 0)] *)
Definition in_stock (resource : Resource.t) : bool :=
  gt (Resource.available resource) (Num 0).

Definition availableResources
  (resourcesData : list Resource.t) (allocationsData : list Allocation.t)
  : list Resource.t :=
  filter in_stock (resourcesWithAvailability resourcesData allocationsData).

(** ** Component state *)

(** What [FormSchema] can report on the [quantity] field. *)
Inductive issue : Type :=
| invalid_type                     (* z.coerce.number(): the input coerces to NaN *)
| too_small                        (* .positive("Quantity must be positive") *)
| too_big (maximum : value).       (* .max(availableQuantity, `Maximum available quantity is ...`) *)

(** The [useState] cells of the component, the two form values held by
    react-hook-form and the part of [form.formState] the component reads. *)
Record State : Type := mkState {
  resources : list Resource.t;
  loading : bool;
  selectedResource : option Resource.t;
  availableQuantity : value;
  resourceId : string;
  quantity : value;              (* the field as [Number] reads it *)
  errors : list issue;
  isSubmitting : bool
}.

(** [useState([])], [useState(true)], [useState(null)], [useState(0)] and
    [defaultValues: { resourceId: "", quantity: 1 }]. *)
Definition initial : State :=
  {| resources := []; loading := true; selectedResource := None;
     availableQuantity := Num 0; resourceId := ""; quantity := Num 1;
     errors := []; isSubmitting := false |}.

Definition set_resources (l : list Resource.t) (st : State) : State :=
  mkState l (loading st) (selectedResource st) (availableQuantity st)
          (resourceId st) (quantity st) (errors st) (isSubmitting st).

Definition set_loading (b : bool) (st : State) : State :=
  mkState (resources st) b (selectedResource st) (availableQuantity st)
          (resourceId st) (quantity st) (errors st) (isSubmitting st).

Definition set_resourceId (id : string) (st : State) : State :=
  mkState (resources st) (loading st) (selectedResource st) (availableQuantity st)
          id (quantity st) (errors st) (isSubmitting st).

Definition set_quantity (v : value) (st : State) : State :=
  mkState (resources st) (loading st) (selectedResource st) (availableQuantity st)
          (resourceId st) v (errors st) (isSubmitting st).

Definition set_errors (l : list issue) (st : State) : State :=
  mkState (resources st) (loading st) (selectedResource st) (availableQuantity st)
          (resourceId st) (quantity st) l (isSubmitting st).

Definition set_isSubmitting (b : bool) (st : State) : State :=
  mkState (resources st) (loading st) (selectedResource st) (availableQuantity st)
          (resourceId st) (quantity st) (errors st) b.

(** The body of the effect on [watchResourceId, resources, form]:
    [setSelectedResource(resource)],
    [setAvailableQuantity(resource.available || resource.quantity)],
    [form.setValue("quantity", 1)]. *)
Definition select (resource : Resource.t) (st : State) : State :=
  mkState (resources st) (loading st) (Some resource)
          (or_else (Resource.available resource) (Resource.quantity resource))
          (resourceId st) (Num 1) (errors st) (isSubmitting st).

(** [resources.find(r => r.id === watchResourceId)] *)
Definition find_resource (id : string) (l : list Resource.t) : option Resource.t :=
  find (fun r => String.eqb (Resource.id r) id) l.

Definition selection_effect (st : State) : State :=
  if String.eqb (resourceId st) "" then st
  else match find_resource (resourceId st) (resources st) with
       | Some resource => select resource st
       | None => st
       end.

(** ** Validation and submission *)

(** The object handed to [onSubmit]: the output of [FormSchema]. *)
Record Data : Type := mkData {
  data_resourceId : string;
  data_quantity : Q
}.

(** [FormSchema], for the bound [availableQuantity] of the current render.
    [resourceId] is always a string and passes [z.string()]; [quantity] is
    coerced with [Number], rejected when [NaN], and then run through the
    two checks in the order they are chained, every failing one reported. *)
Definition FormSchema (availableQuantity : value) (resourceId : string) (quantity : value)
  : list issue + Data :=
  match to_number quantity with
  | None => inl [invalid_type]
  | Some q =>
      let positive := if le (Num q) (Num 0) then [too_small] else [] in
      let max := if gt (Num q) availableQuantity then [too_big availableQuantity] else [] in
      match (positive ++ max)%list with
      | [] => inr (mkData resourceId q)
      | issues => inl issues
      end
  end.

(** The row given to [insert]. *)
Record NewAllocation : Type := mkNewAllocation {
  new_project_id : string;
  new_resource_id : string;
  new_quantity : value;
  new_consumed : bool
}.

Inductive toast : Type :=
| toast_load_error                          (* "Error loading resources" *)
| toast_selection_error                     (* "Selection error" *)
| toast_quantity_error (available : value)  (* "Quantity error", `Only ... units available` *)
| toast_resource_added                      (* "Resource added" *)
| toast_error.                              (* "Error", "Failed to add resource to project" *)

Definition title (t : toast) : string :=
  match t with
  | toast_load_error => "Error loading resources"
  | toast_selection_error => "Selection error"
  | toast_quantity_error _ => "Quantity error"
  | toast_resource_added => "Resource added"
  | toast_error => "Error"
  end.

(** [variant: "destructive"] *)
Definition destructive (t : toast) : bool :=
  match t with
  | toast_resource_added => false
  | _ => true
  end.

(** What the component does to the outside. *)
Inductive event : Type :=
| Toast (t : toast)
| ConsoleError
| Insert (row : NewAllocation)
| OnResourceAdded.

(** The answer of the store to an insert: [{ error }]. *)
Inductive response : Type :=
| Ok
| Error.

(** [onSubmit] up to its [await]: either it returns early with a toast, or it
    issues the insert. *)
Definition onSubmit_request (projectId : string) (st : State) (data : Data)
  : toast + NewAllocation :=
  match selectedResource st with
  | None => inl toast_selection_error
  | Some _ =>
      if gt (Num (data_quantity data)) (availableQuantity st)
      then inl (toast_quantity_error (availableQuantity st))
      else inr (mkNewAllocation projectId (data_resourceId data)
                                (Num (data_quantity data)) false)
  end.

(** [onSubmit] from the [await] on: [if (error) throw error] lands in the
    [catch] block. *)
Definition onSubmit_resume (r : response) : list event :=
  match r with
  | Ok => [Toast toast_resource_added; OnResourceAdded]
  | Error => [ConsoleError; Toast toast_error]
  end.

(** The whole of [onSubmit], given the answer the store will give. *)
Definition onSubmit (projectId : string) (st : State) (data : Data) (r : response)
  : list event :=
  match onSubmit_request projectId st data with
  | inl t => [Toast t]
  | inr row => Insert row :: onSubmit_resume r
  end.

(** Modelled from the spec: [form.handleSubmit] belongs to react-hook-form,
    which is not part of the sources.  It raises [isSubmitting], runs the
    resolver ([zodResolver(FormSchema)] of the current render), records the
    issues or calls [onSubmit] with the parsed data, and lowers
    [isSubmitting] once [onSubmit] has settled.  This is the part up to the
    [await] inside [onSubmit]. *)
Definition handleSubmit_begin (projectId : string) (st : State)
  : State * list event * option NewAllocation :=
  let st := set_isSubmitting true st in
  match FormSchema (availableQuantity st) (resourceId st) (quantity st) with
  | inl issues => (set_isSubmitting false (set_errors issues st), [], None)
  | inr data =>
      let st := set_errors [] st in
      match onSubmit_request projectId st data with
      | inl t => (set_isSubmitting false st, [Toast t], None)
      | inr row => (st, [Insert row], Some row)
      end
  end.

(** Modelled from the spec: the rest of [form.handleSubmit], run when the
    store has answered the insert and [onSubmit] has finished. *)
Definition handleSubmit_resume (st : State) (r : response) : State * list event :=
  (set_isSubmitting false st, onSubmit_resume r).

(** A submission from start to end, the store answering [r] if it is asked. *)
Definition handleSubmit (projectId : string) (st : State) (r : response)
  : State * list event :=
  match handleSubmit_begin projectId st with
  | (st', evs, None) => (st', evs)
  | (st', evs, Some _) =>
      let (st'', evs') := handleSubmit_resume st' r in (st'', (evs ++ evs')%list)
  end.

(** Modelled from the spec: the collection [resource_allocations] as this
    component writes to it; an insert either adds the row or fails and
    writes nothing. *)
Definition insert (r : response) (row : NewAllocation) (rows : list NewAllocation)
  : list NewAllocation :=
  match r with
  | Ok => (rows ++ [row])%list
  | Error => rows
  end.

(** ** The component as a transition system *)

Record World : Type := mkWorld {
  ui : State;
  store : list NewAllocation;
  inflight : option NewAllocation;   (* the insert [onSubmit] is awaiting *)
  log : list event                   (* oldest first *)
}.

Definition start : World :=
  {| ui := initial; store := []; inflight := None; log := [] |}.

Inductive input : Type :=
| FetchResolved (resourcesData : list Resource.t) (allocationsData : list Allocation.t)
| FetchRejected
| SelectResource (id : string)
| TypeQuantity (v : value)
| Submit
| InsertAnswered (r : response).

(** The [SelectItem]s rendered from [resources]. *)
Definition offered (id : string) (st : State) : bool :=
  existsb (fun r => String.eqb (Resource.id r) id) (resources st).

Definition is_none {A : Type} (o : option A) : bool :=
  match o with
  | None => true
  | Some _ => false
  end.

(** [disabled={loading || !selectedResource || form.formState.isSubmitting}] *)
Definition submit_disabled (st : State) : bool :=
  loading st || is_none (selectedResource st) || isSubmitting st.

(** One turn of the event loop: a handler, followed by the effects whose
    dependencies it changed.  An input the interface does not allow in the
    current state (a disabled control, an answer nobody waits for) leaves
    the world as it is.  The browser's own validation of the number input
    ([min], [max] and the default step) and the re-validation that
    react-hook-form runs on a change after a failed submission are not
    modelled: a press of the button is admitted in more states than a
    browser delivers it, and [errors] changes only on a submission. *)
Definition step (projectId : string) (w : World) (i : input) : World :=
  let st := ui w in
  match i with
  | FetchResolved resourcesData allocationsData =>
      if loading st then
        let st := set_resources (availableResources resourcesData allocationsData) st in
        mkWorld (selection_effect (set_loading false st)) (store w) (inflight w) (log w)
      else w
  | FetchRejected =>
      if loading st then
        mkWorld (set_loading false st) (store w) (inflight w)
                (log w ++ [ConsoleError; Toast toast_load_error])%list
      else w
  | SelectResource id =>
      if negb (loading st) && offered id st && negb (String.eqb id (resourceId st)) then
        mkWorld (selection_effect (set_resourceId id st)) (store w) (inflight w) (log w)
      else w
  | TypeQuantity v =>
      if is_none (selectedResource st) then w
      else mkWorld (set_quantity v st) (store w) (inflight w) (log w)
  | Submit =>
      if submit_disabled st then w
      else
        match handleSubmit_begin projectId st with
        | (st', evs, req) => mkWorld st' (store w) req (log w ++ evs)%list
        end
  | InsertAnswered r =>
      match inflight w with
      | None => w
      | Some row =>
          let (st', evs) := handleSubmit_resume st r in
          mkWorld st' (insert r row (store w)) None (log w ++ evs)%list
      end
  end.

Definition run (projectId : string) (inputs : list input) : World :=
  fold_left (step projectId) inputs start.

Definition reachable (projectId : string) (w : World) : Prop :=
  exists inputs, w = run projectId inputs.

(** How many inserts, and how many calls of [onResourceAdded], a log holds. *)
Definition is_insert (e : event) : bool :=
  match e with
  | Insert _ => true
  | _ => false
  end.

Definition is_onResourceAdded (e : event) : bool :=
  match e with
  | OnResourceAdded => true
  | _ => false
  end.

Definition count (p : event -> bool) (l : list event) : nat :=
  List.length (filter p l).

(** ** The same computation over a heap of objects

    Rows and arrays are JavaScript objects, reached through references.
    The computation is written here as it runs: it dereferences the two
    input arrays and their rows and allocates the arrays and objects that
    [map], [filter] and the object spread create. *)

Module Heap.

Definition ref : Type := nat.

Inductive object : Type :=
| resource_row (r : Resource.t)
| allocation_row (a : Allocation.t)
| array (elements : list ref).

Definition heap : Type := list object.

(** A computation reads and extends the heap, or gets stuck on a
    reference that does not hold what it expects. *)
Definition M (A : Type) : Type := heap -> option (A * heap).

Definition ret {A : Type} (x : A) : M A := fun h => Some (x, h).

Definition bind {A B : Type} (m : M A) (k : A -> M B) : M B :=
  fun h => match m h with
           | Some (x, h') => k x h'
           | None => None
           end.

Definition stuck {A : Type} : M A := fun _ => None.

Definition deref (p : ref) : M object :=
  fun h => match nth_error h p with
           | Some o => Some (o, h)
           | None => None
           end.

Definition alloc (o : object) : M ref :=
  fun h => Some (List.length h, (h ++ [o])%list).

Declare Scope heap_scope.
Delimit Scope heap_scope with heap.
Notation "x <- m ;; k" := (bind m (fun x => k))
  (at level 61, m at next level, right associativity) : heap_scope.
Local Open Scope heap_scope.

Definition get_resource (p : ref) : M Resource.t :=
  o <- deref p ;;
  match o with
  | resource_row r => ret r
  | _ => stuck
  end.

Definition get_allocation (p : ref) : M Allocation.t :=
  o <- deref p ;;
  match o with
  | allocation_row a => ret a
  | _ => stuck
  end.

Definition get_array (p : ref) : M (list ref) :=
  o <- deref p ;;
  match o with
  | array elements => ret elements
  | _ => stuck
  end.

Fixpoint mapM {A B : Type} (f : A -> M B) (l : list A) : M (list B) :=
  match l with
  | [] => ret []
  | x :: l' => y <- f x ;; ys <- mapM f l' ;; ret (y :: ys)
  end.

Fixpoint filterM {A : Type} (p : A -> M bool) (l : list A) : M (list A) :=
  match l with
  | [] => ret []
  | x :: l' => b <- p x ;; ys <- filterM p l' ;; ret (if b then x :: ys else ys)
  end.

Fixpoint foldM {A B : Type} (f : B -> A -> M B) (l : list A) (acc : B) : M B :=
  match l with
  | [] => ret acc
  | x :: l' => acc' <- f acc x ;; foldM f l' acc'
  end.

(** [Array.prototype.map], [filter] and [reduce]: the receiver is read,
    the result of [map] and [filter] is a new array. *)
Definition array_map (f : ref -> M ref) (arr : ref) : M ref :=
  elements <- get_array arr ;;
  out <- mapM f elements ;;
  alloc (array out).

Definition array_filter (p : ref -> M bool) (arr : ref) : M ref :=
  elements <- get_array arr ;;
  kept <- filterM p elements ;;
  alloc (array kept).

Definition array_reduce (f : value -> ref -> M value) (arr : ref) (init : value)
  : M value :=
  elements <- get_array arr ;;
  foldM f elements init.

(** The callback of [resourcesData.map]: lines 93 to 121 of
    [fetchResources]. *)
Definition map_callback (allocationsData : ref) (resource : ref) : M ref :=
  allocations <-
    array_filter (fun alloc =>
      a <- get_allocation alloc ;;
      r <- get_resource resource ;;
      ret (String.eqb (Allocation.resource_id a) (Resource.id r)
           && negb (Allocation.consumed a)))
    allocationsData ;;
  allocatedQuantity <-
    array_reduce (fun sum alloc =>
      a <- get_allocation alloc ;;
      ret (add sum (or_else (Allocation.quantity a) (Num 0))))
    allocations (Num 0) ;;
  r <- get_resource resource ;;
  alloc (resource_row (annotate r allocatedQuantity)).

(** Lines 93 to 126 of [fetchResources], from [resourcesData.map] to
    [availableResources]. *)
Definition computeAvailability (resourcesData allocationsData : ref) : M ref :=
  resourcesWithAvailability <-
    array_map (map_callback allocationsData) resourcesData ;;
  array_filter (fun resource =>
    r <- get_resource resource ;;
    ret (gt (Resource.available r) (Num 0)))
  resourcesWithAvailability.

(** What an array of rows holds, read off the heap. *)
Definition holds_resources (h : heap) (p : ref) (rows : list Resource.t) : Prop :=
  exists refs,
    nth_error h p = Some (array refs)
    /\ Forall2 (fun q r => nth_error h q = Some (resource_row r)) refs rows.

Definition holds_allocations (h : heap) (p : ref) (rows : list Allocation.t) : Prop :=
  exists refs,
    nth_error h p = Some (array refs)
    /\ Forall2 (fun q a => nth_error h q = Some (allocation_row a)) refs rows.

(** The heap [h'] still has every object of [h], unchanged. *)
Definition extends (h h' : heap) : Prop := exists fresh, h' = (h ++ fresh)%list.

(** A computation that, whenever it returns, has only added objects. *)
Definition grows {A : Type} (m : M A) : Prop :=
  forall h x h', m h = Some (x, h') -> extends h h'.

End Heap.

(** ** The availability computation in double precision

    The numbers of the source are IEEE 754 doubles: [sum + ...],
    [resource.quantity - allocatedQuantity] and [resource.quantity * 0.2]
    round to nearest, ties to even, and [0.2] is not a double.  The module
    below is the computation of [fetchResources] with this arithmetic,
    taken from [SpecFloat] at precision 53 and maximal exponent 1024. *)

Module Binary64.

Definition prec : Z := 53.
Definition emax : Z := 1024.

Definition of_Z (z : Z) : spec_float := binary_normalize prec emax z 0 false.

(** The literal [0]. *)
Definition zero : spec_float := S754_zero false.

(** The literal [0.2]: the double nearest to one fifth. *)
Definition point_two : spec_float := SFdiv prec emax (of_Z 1) (of_Z 5).

(** The double nearest to [n / 10], as the literal [0.1], [0.7], ... denotes. *)
Definition tenths (n : Z) : spec_float := SFdiv prec emax (of_Z n) (of_Z 10).

Definition add : spec_float -> spec_float -> spec_float := SFadd prec emax.
Definition sub : spec_float -> spec_float -> spec_float := SFsub prec emax.
Definition mul : spec_float -> spec_float -> spec_float := SFmul prec emax.

(** The values that reach the numeric code; [NaN] is [Num S754_nan]. *)
Inductive value : Type :=
| Null
| Undefined
| Num (x : spec_float).

(** ToNumber: [null] is [0], [undefined] is [NaN]. *)
Definition to_number (v : value) : spec_float :=
  match v with
  | Null => zero
  | Undefined => S754_nan
  | Num x => x
  end.

(** ToBoolean: [null], [undefined], [NaN], [0] and [-0] are falsy. *)
Definition truthy (v : value) : bool :=
  match v with
  | Num (S754_finite _ _ _) => true
  | Num (S754_infinity _) => true
  | _ => false
  end.

(** [v || 0], read as a number. *)
Definition or_zero (v : value) : spec_float :=
  if truthy v then to_number v else zero.

Module Resource.
Record t : Type := mk {
  id : string;
  name : string;
  type : string;
  unit : string;
  quantity : value;
  cost : value;
  returnable : bool;
  status : string;
  allocated : value;
  available : value
}.
End Resource.

Module Allocation.
Record t : Type := mk {
  id : string;
  project_id : string;
  resource_id : string;
  quantity : value;
  consumed : bool
}.
End Allocation.

(** [alloc.resource_id === resource.id && !alloc.consumed] *)
Definition references (resource : Resource.t) (alloc : Allocation.t) : bool :=
  String.eqb (Allocation.resource_id alloc) (Resource.id resource)
  && negb (Allocation.consumed alloc).

Definition allocations (resource : Resource.t) (allocationsData : list Allocation.t)
  : list Allocation.t :=
  filter (references resource) allocationsData.

(** [allocations.reduce((sum, alloc) => sum + (alloc.quantity || 0), 0)] *)
Definition reduce_quantity (l : list Allocation.t) (init : spec_float) : spec_float :=
  fold_left (fun sum alloc => add sum (or_zero (Allocation.quantity alloc))) l init.

Definition allocatedQuantity (resource : Resource.t) (allocationsData : list Allocation.t)
  : spec_float :=
  reduce_quantity (allocations resource allocationsData) zero.

(** [resource.quantity - allocatedQuantity] *)
Definition availableQty (resource : Resource.t) (allocationsData : list Allocation.t)
  : spec_float :=
  sub (to_number (Resource.quantity resource)) (allocatedQuantity resource allocationsData).

(** The [if / else if / else] that assigns [status]; [quantity] is
    [resource.quantity] as [*] reads it. *)
Definition status_of (availableQty quantity : spec_float) : string :=
  if SFleb availableQty zero then "Out of Stock"
  else if SFltb availableQty (mul quantity point_two) then "Low Stock"
  else "Available".

(** [{ ...resource, allocated: allocatedQuantity, available: availableQty, status }] *)
Definition annotate (resource : Resource.t) (allocatedQuantity : spec_float) : Resource.t :=
  let availableQty := sub (to_number (Resource.quantity resource)) allocatedQuantity in
  {| Resource.id := Resource.id resource;
     Resource.name := Resource.name resource;
     Resource.type := Resource.type resource;
     Resource.unit := Resource.unit resource;
     Resource.quantity := Resource.quantity resource;
     Resource.cost := Resource.cost resource;
     Resource.returnable := Resource.returnable resource;
     Resource.status := status_of availableQty (to_number (Resource.quantity resource));
     Resource.allocated := Num allocatedQuantity;
     Resource.available := Num availableQty |}.

(** The callback of [resourcesData.map]. *)
Definition withAvailability (allocationsData : list Allocation.t) (resource : Resource.t)
  : Resource.t :=
  annotate resource (allocatedQuantity resource allocationsData).

Definition resourcesWithAvailability
  (resourcesData : list Resource.t) (allocationsData : list Allocation.t)
  : list Resource.t :=
  map (withAvailability allocationsData) resourcesData.

(** [resource => resource.available > 0] *)
Definition in_stock (resource : Resource.t) : bool :=
  SFltb zero (to_number (Resource.available resource)).

Definition availableResources
  (resourcesData : list Resource.t) (allocationsData : list Allocation.t)
  : list Resource.t :=
  filter in_stock (resourcesWithAvailability resourcesData allocationsData).

(** *** Following the wording of the specification *)

(** "sum of quantity": the terms added one after the other, from the
    first to the last, each addition rounded; the sum of no term is [0]. *)
Fixpoint sum_backwards (terms : list spec_float) : spec_float :=
  match terms with
  | [] => zero
  | last :: earlier => add (sum_backwards earlier) last
  end.

Definition sum (terms : list spec_float) : spec_float := sum_backwards (rev terms).

(** The quantity an allocation counts for. *)
Definition counted (alloc : Allocation.t) : spec_float :=
  or_zero (Allocation.quantity alloc).

(** [x <= 0] and [0 < x] spelled out on the representation. *)
Definition nonpositive (x : spec_float) : bool :=
  match x with
  | S754_zero _ => true
  | S754_finite true _ _ => true
  | S754_infinity true => true
  | _ => false
  end.

Definition is_positive (x : spec_float) : bool :=
  match x with
  | S754_finite false _ _ => true
  | S754_infinity false => true
  | _ => false
  end.

(** *** Whole numbers as doubles *)

(** [c] followed by [n] zero bits. *)
Definition shl (c : positive) (n : nat) : positive := Nat.iter n xO c.

(** The double of a whole number of at most 53 bits: the bits of [c],
    padded to 53, and the exponent that makes up for the padding. *)
Definition canonical (s : bool) (c : positive) : spec_float :=
  S754_finite s (shl c (Z.to_nat (53 - Zpos (digits2_pos c))))
              (Zpos (digits2_pos c) - 53).

Definition signed (s : bool) (c : positive) : Z := cond_Zopp s (Zpos c).

(** The whole, non-negative number an allocation counts for. *)
Definition whole (amount : Allocation.t -> Z) (alloc : Allocation.t) : Prop :=
  counted alloc = of_Z (amount alloc) /\ (0 <= amount alloc)%Z.

(** The sum of whole numbers, in the integers. *)
Definition total (amount : Allocation.t -> Z) (l : list Allocation.t) : Z :=
  fold_right (fun alloc s => (amount alloc + s)%Z) 0%Z l.

(** Is [k] of [5 * k] "Available" and [k] of [5 * k + 1] "Low Stock", for
    every whole [k] from [1] to [n]? *)
Definition fifth_is_available_upto (n : nat) : bool :=
  forallb (fun k =>
             String.eqb (status_of (of_Z k) (of_Z (5 * k))) "Available"
             && String.eqb (status_of (of_Z k) (of_Z (5 * k + 1))) "Low Stock")
          (map (fun i => Z.of_nat (S i)) (seq 0 n)).

(** *** Sample rows *)

Definition resource (id : string) (quantity : spec_float) : Resource.t :=
  Resource.mk id id "Material" "units" (Num quantity) (Num (of_Z 1)) false
              "Available" Undefined Undefined.

Definition allocation (id resource_id : string) (quantity : value) (consumed : bool)
  : Allocation.t :=
  Allocation.mk id "p0" resource_id quantity consumed.

(** One unit, and three allocations of [0.1], [0.2] and [0.7]. *)
Definition unit_resource : Resource.t := resource "r-unit" (of_Z 1).

Definition tenth_first : list Allocation.t :=
  [ allocation "a1" "r-unit" (Num (tenths 1)) false;
    allocation "a2" "r-unit" (Num (tenths 2)) false;
    allocation "a3" "r-unit" (Num (tenths 7)) false ].

Definition crane : Resource.t := resource "r-crane" (of_Z 100).

Definition crane_allocations : list Allocation.t :=
  [ allocation "a1" "r-crane" (Num (of_Z 60)) false;
    allocation "a2" "r-other" (Num (of_Z 10)) false;
    allocation "a3" "r-crane" (Num (of_Z 20)) true;
    allocation "a4" "r-crane" Null false;
    allocation "a5" "r-crane" (Num (of_Z 25)) false ].

(** The whole numbers these allocations count for. *)
Definition crane_amount (alloc : Allocation.t) : Z :=
  if String.eqb (Allocation.id alloc) "a1" then 60%Z
  else if String.eqb (Allocation.id alloc) "a5" then 25%Z
  else 0%Z.

End Binary64.

(** Do the two computations give the same label for [quantity] and
    [allocatedQuantity]? *)
Definition agrees (quantity allocatedQuantity : Z) : bool :=
  String.eqb
    (Binary64.status_of
       (Binary64.sub (Binary64.of_Z quantity) (Binary64.of_Z allocatedQuantity))
       (Binary64.of_Z quantity))
    (status_of (sub (Num (inject_Z quantity)) (Num (inject_Z allocatedQuantity)))
               (Num (inject_Z quantity))).

Definition upto (n : nat) : list Z := map Z.of_nat (seq 0 n).

Definition agrees_upto (n : nat) : bool :=
  forallb (fun quantity => forallb (agrees quantity) (upto n)) (upto n).

(** ** Definitions that follow the wording of the specification *)

(** The number a [quantity] field stands for; a missing or falsy one counts
    for nothing. *)
Definition quantity_number (v : value) : Q :=
  match v with
  | Num q => q
  | _ => 0
  end.

(** "sum of quantity over allocations" *)
Fixpoint sum_quantity (l : list Allocation.t) : Q :=
  match l with
  | [] => 0
  | alloc :: l' => quantity_number (Allocation.quantity alloc) + sum_quantity l'
  end.


(** How a submission ends, in the terms of the spec's error taxonomy. *)
Inductive outcome : Type :=
| SelectionError
| ValidationError
| PersistenceError
| Persisted.

(** The outcome read off what a submission leaves behind: the issues the
    resolver recorded and the events [onSubmit] produced. *)
Definition outcome_of (result : State * list event) : outcome :=
  let (st, evs) := result in
  match errors st with
  | _ :: _ => ValidationError
  | [] =>
      match evs with
      | Toast toast_selection_error :: _ => SelectionError
      | Toast (toast_quantity_error _) :: _ => ValidationError
      | Insert _ :: Toast toast_resource_added :: _ => Persisted
      | _ => PersistenceError
      end
  end.

(** What holds of the component in every world it can reach: the offered
    resources are in stock and there is none while loading, the bound is the [available] of the selected
    resource (and [0] while none is selected), and an insert is awaited
    only while [isSubmitting] is raised, after loading, with a resource
    selected. *)
Definition invariant (w : World) : Prop :=
  (Forall (fun r => in_stock r = true) (resources (ui w))
   /\ (loading (ui w) = true -> resources (ui w) = []))
  /\ (selectedResource (ui w) = None -> availableQuantity (ui w) = Num 0)
  /\ (forall r, selectedResource (ui w) = Some r ->
                in_stock r = true /\ availableQuantity (ui w) = Resource.available r)
  /\ (forall row, inflight w = Some row ->
                  isSubmitting (ui w) = true
                  /\ loading (ui w) = false
                  /\ selectedResource (ui w) <> None).

(** ** Sample data

    The examples of the specification: a resource of 50 with no
    allocation, one of 100 with 85 allocated, one of 10 fully allocated. *)

Definition cement : Resource.t :=
  Resource.mk "r-cement" "Cement" "Material" "bags" (Num 50) (Num 12) false
              "Available" Undefined Undefined.

Definition crane : Resource.t :=
  Resource.mk "r-crane" "Crane hours" "Equipment" "hours" (Num 100) (Num 80) true
              "Available" Undefined Undefined.

Definition scaffold : Resource.t :=
  Resource.mk "r-scaffold" "Scaffold" "Equipment" "sets" (Num 10) (Num 30) true
              "Available" Undefined Undefined.

Definition sample_resources : list Resource.t := [cement; crane; scaffold].

Definition crane_60 : Allocation.t := Allocation.mk "a1" "p0" "r-crane" (Num 60) false.
Definition scaffold_10 : Allocation.t := Allocation.mk "a2" "p0" "r-scaffold" (Num 10) false.
Definition cement_consumed : Allocation.t := Allocation.mk "a3" "p0" "r-cement" (Num 20) true.
Definition crane_null : Allocation.t := Allocation.mk "a4" "p0" "r-crane" Null false.
Definition crane_25 : Allocation.t := Allocation.mk "a5" "p9" "r-crane" (Num 25) false.

Definition sample_allocations : list Allocation.t :=
  [crane_60; scaffold_10; cement_consumed; crane_null; crane_25].

(** A heap holding the rows and, at [3] and [9], the two arrays. *)
Definition sample_heap : Heap.heap :=
  [ Heap.resource_row cement; Heap.resource_row crane; Heap.resource_row scaffold;
    Heap.array [0; 1; 2]%nat;
    Heap.allocation_row crane_60; Heap.allocation_row scaffold_10;
    Heap.allocation_row cement_consumed; Heap.allocation_row crane_null;
    Heap.allocation_row crane_25;
    Heap.array [4; 5; 6; 7; 8]%nat ].

(** The component once the fetch has answered, nothing selected yet. *)
Definition loaded : World :=
  run "p1" [FetchResolved sample_resources sample_allocations].

(** The same after choosing the cement and typing [50]. *)
Definition cement_chosen : World :=
  run "p1" [FetchResolved sample_resources sample_allocations;
            SelectResource "r-cement"; TypeQuantity (Num 50)].

(** The same once more after pressing the submit button. *)
Definition cement_requested : World :=
  step "p1" cement_chosen Submit.

(** The row asked for there. *)
Definition cement_row : NewAllocation :=
  mkNewAllocation "p1" "r-cement" (Num 50) false.

(** The history of [cement_requested]. *)
Definition cement_inputs : list input :=
  [FetchResolved sample_resources sample_allocations;
   SelectResource "r-cement"; TypeQuantity (Num 50); Submit].

(** ** Notions used by the further properties *)

(** The toast of the [catch] block of [onSubmit]. *)
Definition is_toast_error (e : event) : bool :=
  match e with
  | Toast toast_error => true
  | _ => false
  end.

(** The two toasts [onSubmit] shows before it returns early. *)
Definition is_early_return_toast (e : event) : bool :=
  match e with
  | Toast toast_selection_error => true
  | Toast (toast_quantity_error _) => true
  | _ => false
  end.

(** [1] while an insert is awaited. *)
Definition pending (w : World) : nat :=
  match inflight w with
  | Some _ => 1
  | None => 0
  end.

(** A row as [onSubmit] builds it from validated data. *)
Definition well_formed_row (projectId : string) (row : NewAllocation) : Prop :=
  new_project_id row = projectId
  /\ new_consumed row = false
  /\ exists q, new_quantity row = Num q /\ 0 < q.

(** What the log and the store of a reachable world add up to. *)
Definition accounting (projectId : string) (w : World) : Prop :=
  Forall (well_formed_row projectId) (store w)
  /\ (forall row, inflight w = Some row -> well_formed_row projectId row)
  /\ count is_onResourceAdded (log w) = List.length (store w)
  /\ count is_insert (log w)
     = (List.length (store w) + count is_toast_error (log w) + pending w)%nat
  /\ count is_early_return_toast (log w) = 0%nat.

(** No offered resource has the empty string as identifier. *)
Definition nonempty_ids (l : list Resource.t) : Prop :=
  Forall (fun r => Resource.id r <> "") l.

(** The selection agrees with the list and with the form. *)
Definition selection_consistent (w : World) : Prop :=
  (loading (ui w) = true -> selectedResource (ui w) = None)
  /\ (forall r, selectedResource (ui w) = Some r ->
                In r (resources (ui w))
                /\ (nonempty_ids (resources (ui w)) ->
                    Resource.id r = resourceId (ui w))).

(** * Properties *)

(** ** Comparisons and coercions *)

Lemma Qlt_bool_iff (x y : Q) : Qlt_bool x y = true <-> x < y.
Proof.
  unfold Qlt_bool. rewrite negb_true_iff. split; intro H.
  - destruct (Qlt_le_dec x y) as [Hlt | Hle]; [exact Hlt|].
    apply Qle_bool_iff in Hle. congruence.
  - destruct (Qle_bool y x) eqn:E; [|reflexivity].
    apply Qle_bool_iff in E. lra.
Qed.

Lemma le_Num (a b : Q) : le (Num a) (Num b) = true <-> a <= b.
Proof. apply Qle_bool_iff. Qed.

Lemma lt_Num (a b : Q) : lt (Num a) (Num b) = true <-> a < b.
Proof. apply Qlt_bool_iff. Qed.

Lemma le_Num_false (a b : Q) : le (Num a) (Num b) = false <-> b < a.
Proof.
  rewrite <- not_true_iff_false, le_Num. split; intro H; lra.
Qed.

Lemma lt_Num_false (a b : Q) : lt (Num a) (Num b) = false <-> b <= a.
Proof.
  rewrite <- not_true_iff_false, lt_Num. split; intro H; lra.
Qed.

(** [v > 0] holds only of a positive number: not of [null], [undefined],
    [NaN] or [0]. *)
Lemma gt_zero (v : value) : gt v (Num 0) = true <-> exists q, v = Num q /\ 0 < q.
Proof.
  unfold gt, lt, compare. split.
  - destruct v as [| | |q]; simpl; intro H; try discriminate.
    exists q. split; [reflexivity|]. now apply Qlt_bool_iff.
  - intros (q & -> & Hq). simpl. now apply Qlt_bool_iff.
Qed.

Lemma truthy_positive (q : Q) : 0 < q -> truthy (Num q) = true.
Proof.
  intro Hq. simpl. apply negb_true_iff.
  destruct (Qeq_bool q 0) eqn:E; [|reflexivity].
  apply Qeq_bool_eq in E. lra.
Qed.

Lemma falsy_cases (v : value) :
  truthy v = false <->
  v = Null \/ v = Undefined \/ v = NaN \/ exists q, v = Num q /\ q == 0.
Proof.
  split.
  - destruct v as [| | |q]; simpl; intro H; auto.
    right; right; right. exists q. split; [reflexivity|].
    apply negb_false_iff in H. now apply Qeq_bool_eq.
  - intros [-> | [-> | [-> | (q & -> & Hq)]]]; try reflexivity.
    simpl. apply negb_false_iff. now apply Qeq_eq_bool.
Qed.

(** [alloc.quantity || 0] is always a number, the one the field stands for. *)
Lemma or_zero_number (v : value) :
  exists q, or_else v (Num 0) = Num q /\ q == quantity_number v.
Proof.
  unfold or_else. destruct (truthy v) eqn:E.
  - destruct v as [| | |q]; try discriminate. exists q. split; reflexivity.
  - exists 0. split; [reflexivity|].
    apply falsy_cases in E.
    destruct E as [-> | [-> | [-> | (q & -> & Hq)]]]; simpl; lra.
Qed.

(** ** The reduction *)

Lemma reduce_quantity_cons (alloc : Allocation.t) (l : list Allocation.t) (init : value) :
  reduce_quantity (alloc :: l) init =
  reduce_quantity l (add init (or_else (Allocation.quantity alloc) (Num 0))).
Proof. reflexivity. Qed.

Lemma reduce_quantity_sum (l : list Allocation.t) :
  forall s : Q, exists s', reduce_quantity l (Num s) = Num s' /\ s' == s + sum_quantity l.
Proof.
  induction l as [|alloc l IH]; intro s.
  - exists s. split; [reflexivity|]. simpl. lra.
  - rewrite reduce_quantity_cons.
    destruct (or_zero_number (Allocation.quantity alloc)) as (q & -> & Hq).
    change (add (Num s) (Num q)) with (Num (s + q)).
    destruct (IH (s + q)) as (s' & -> & Hs').
    exists s'. split; [reflexivity|]. simpl. lra.
Qed.

Lemma sum_quantity_app (l1 l2 : list Allocation.t) :
  sum_quantity (l1 ++ l2) == sum_quantity l1 + sum_quantity l2.
Proof.
  induction l1 as [|a l1 IH]; simpl; lra.
Qed.

Lemma allocations_spec (resource : Resource.t) (allocationsData : list Allocation.t)
      (alloc : Allocation.t) :
  In alloc (allocations resource allocationsData) <->
  In alloc allocationsData
  /\ Allocation.resource_id alloc = Resource.id resource
  /\ Allocation.consumed alloc = false.
Proof.
  unfold allocations, references. rewrite filter_In, andb_true_iff.
  rewrite String.eqb_eq, negb_true_iff. tauto.
Qed.

(** C9. An allocation whose [quantity] is [null], [undefined], [NaN] or [0]
    adds exactly [0]: the addend [alloc.quantity || 0] is the number [0],
    the total with the record in the list equals the total without it, and
    the reduction over any list of records whatever is a number. *)
Theorem falsy_quantity_adds_zero
        (alloc : Allocation.t) (before after : list Allocation.t) :
  truthy (Allocation.quantity alloc) = false ->
  or_else (Allocation.quantity alloc) (Num 0) = Num 0
  /\ (exists s s',
         reduce_quantity (before ++ alloc :: after) (Num 0) = Num s
         /\ reduce_quantity (before ++ after) (Num 0) = Num s'
         /\ s == s')
  /\ (forall l : list Allocation.t, exists s, reduce_quantity l (Num 0) = Num s).
Proof.
  intro Hfalsy. split; [|split].
  - unfold or_else. now rewrite Hfalsy.
  - destruct (reduce_quantity_sum (before ++ alloc :: after) 0) as (s & Hs & Es).
    destruct (reduce_quantity_sum (before ++ after) 0) as (s' & Hs' & Es').
    exists s, s'. split; [exact Hs|]. split; [exact Hs'|].
    rewrite sum_quantity_app in Es, Es'. simpl in Es.
    assert (Hz : quantity_number (Allocation.quantity alloc) == 0).
    { apply falsy_cases in Hfalsy.
      destruct Hfalsy as [-> | [-> | [-> | (q & -> & Hq)]]]; simpl; lra. }
    lra.
  - intro l. destruct (reduce_quantity_sum l 0) as (s & Hs & _). now exists s.
Qed.

(** ** The filter *)



Lemma in_stock_withAvailability (allocationsData : list Allocation.t) (r : Resource.t) :
  in_stock (withAvailability allocationsData r) = gt (availableQty r allocationsData) (Num 0).
Proof. reflexivity. Qed.


(** C10. A resource in the list offered for selection has a positive
    number as [available]; [resource.available || resource.quantity] is
    then [resource.available], which is also the bound that selecting the
    resource installs, and it is the availability computed for the row the
    resource comes from. *)
Theorem offered_resource_bound
        (resourcesData : list Resource.t) (allocationsData : list Allocation.t)
        (resource : Resource.t) :
  In resource (availableResources resourcesData allocationsData) ->
  (exists q, Resource.available resource = Num q /\ 0 < q)
  /\ or_else (Resource.available resource) (Resource.quantity resource)
     = Resource.available resource
  /\ (forall st, availableQuantity (select resource st) = Resource.available resource)
  /\ (exists row, In row resourcesData
                  /\ resource = withAvailability allocationsData row
                  /\ Resource.available resource = availableQty row allocationsData).
Proof.
  intro Hin. unfold availableResources in Hin.
  apply filter_In in Hin. destruct Hin as [Hmap Hpos].
  unfold in_stock in Hpos. apply gt_zero in Hpos.
  destruct Hpos as (q & Hq & Hpos).
  assert (Hor : or_else (Resource.available resource) (Resource.quantity resource)
                = Resource.available resource).
  { unfold or_else. rewrite Hq. now rewrite (truthy_positive q Hpos). }
  split; [now exists q|]. split; [exact Hor|]. split; [intro st; exact Hor|].
  unfold resourcesWithAvailability in Hmap. apply in_map_iff in Hmap.
  destruct Hmap as (row & <- & Hrow).
  exists row. repeat split. exact Hrow.
Qed.

(** ** Validation *)

Lemma FormSchema_accepts (bound : value) (id : string) (v : value) (data : Data) :
  FormSchema bound id v = inr data <->
  exists q, to_number v = Some q /\ 0 < q /\ gt (Num q) bound = false
            /\ data = mkData id q.
Proof.
  unfold FormSchema. split.
  - destruct (to_number v) as [q|]; [|discriminate].
    destruct (le (Num q) (Num 0)) eqn:E1; [discriminate|].
    destruct (gt (Num q) bound) eqn:E2; [discriminate|].
    simpl. intro H. injection H as <-.
    exists q. apply le_Num_false in E1. auto.
  - intros (q & -> & Hq & Hb & ->).
    apply le_Num_false in Hq. rewrite Hq, Hb. reflexivity.
Qed.

Lemma FormSchema_rejects (bound : value) (id : string) (v : value) :
  (to_number v = None
   \/ exists q, to_number v = Some q /\ (q <= 0 \/ gt (Num q) bound = true)) ->
  exists i issues, FormSchema bound id v = inl (i :: issues).
Proof.
  unfold FormSchema. intros [-> | (q & -> & H)].
  - now exists invalid_type, [].
  - destruct (le (Num q) (Num 0)) eqn:E1.
    + destruct (gt (Num q) bound); simpl; eauto.
    + destruct H as [H | H].
      * apply le_Num in H. congruence.
      * rewrite H. simpl. eauto.
Qed.

(** The two checks of the schema are reported in the order they are
    chained: a non-positive quantity is reported first. *)
Lemma FormSchema_first_issue (bound : value) (id : string) (v : value) (q : Q) :
  to_number v = Some q -> q <= 0 ->
  exists issues, FormSchema bound id v = inl (too_small :: issues).
Proof.
  unfold FormSchema. intros -> H. apply le_Num in H. rewrite H.
  destruct (gt (Num q) bound); simpl; eauto.
Qed.

(** When the schema accepts, what the submission does is what [onSubmit]
    does with the parsed data. *)
Lemma handleSubmit_calls_onSubmit (projectId : string) (st : State) (r : response)
      (data : Data) :
  FormSchema (availableQuantity st) (resourceId st) (quantity st) = inr data ->
  snd (handleSubmit projectId st r)
  = onSubmit projectId (set_errors [] (set_isSubmitting true st)) data r.
Proof.
  intro E. unfold handleSubmit, handleSubmit_begin, onSubmit. simpl. rewrite E.
  destruct (onSubmit_request projectId (set_errors [] (set_isSubmitting true st)) data);
    reflexivity.
Qed.

(** C4, as amended. A submission runs the schema first: a quantity that is
    not a number, is not positive, or exceeds [availableQuantity] is
    recorded as a validation issue and [onSubmit] is not called, whether or
    not a resource is selected.  Only then does [onSubmit] check that a
    resource is selected (selection error) and, once more, that the quantity
    does not exceed [availableQuantity] (quantity error).  Every failing
    check ends the submission with no insert. *)
Theorem submission_checks_in_order (projectId : string) (st : State) (r : response) :
  (* the schema *)
  ((to_number (quantity st) = None
    \/ exists q, to_number (quantity st) = Some q
                 /\ (q <= 0 \/ gt (Num q) (availableQuantity st) = true)) ->
   errors (fst (handleSubmit projectId st r)) <> []
   /\ snd (handleSubmit projectId st r) = []
   /\ outcome_of (handleSubmit projectId st r) = ValidationError)
  (* the positive check is reported before the bound *)
  /\ (forall q, to_number (quantity st) = Some q -> q <= 0 ->
                exists rest,
                  errors (fst (handleSubmit projectId st r)) = too_small :: rest)
  (* then the selection *)
  /\ (forall q, to_number (quantity st) = Some q -> 0 < q ->
                gt (Num q) (availableQuantity st) = false ->
                selectedResource st = None ->
                snd (handleSubmit projectId st r) = [Toast toast_selection_error]
                /\ outcome_of (handleSubmit projectId st r) = SelectionError)
  (* [onSubmit] on its own: selection, then the bound again *)
  /\ (forall data, selectedResource st = None ->
                   onSubmit projectId st data r = [Toast toast_selection_error])
  /\ (forall data, selectedResource st <> None ->
                   gt (Num (data_quantity data)) (availableQuantity st) = true ->
                   onSubmit projectId st data r
                   = [Toast (toast_quantity_error (availableQuantity st))])
  (* no insert unless every check passes *)
  /\ (count is_insert (snd (handleSubmit projectId st r)) <> 0%nat ->
      selectedResource st <> None
      /\ exists q, to_number (quantity st) = Some q /\ 0 < q
                   /\ gt (Num q) (availableQuantity st) = false).
Proof.
  split; [|split; [|split; [|split; [|split]]]].
  - intro H.
    destruct (FormSchema_rejects (availableQuantity st) (resourceId st) (quantity st) H)
      as (i & issues & E).
    unfold handleSubmit, handleSubmit_begin. simpl. rewrite E. simpl.
    split; [discriminate|]. split; reflexivity.
  - intros q Hn Hq.
    destruct (FormSchema_first_issue (availableQuantity st) (resourceId st)
                                     (quantity st) q Hn Hq) as (rest & E).
    exists rest. unfold handleSubmit, handleSubmit_begin. simpl. now rewrite E.
  - intros q Hn Hq Hb Hsel.
    assert (E : FormSchema (availableQuantity st) (resourceId st) (quantity st)
                = inr (mkData (resourceId st) q)).
    { apply FormSchema_accepts. exists q. auto. }
    unfold handleSubmit, handleSubmit_begin, onSubmit_request. simpl.
    rewrite E. simpl. rewrite Hsel. simpl. split; reflexivity.
  - intros data Hsel. unfold onSubmit, onSubmit_request. now rewrite Hsel.
  - intros data Hsel Hb. unfold onSubmit, onSubmit_request.
    destruct (selectedResource st); [|congruence]. now rewrite Hb.
  - unfold handleSubmit, handleSubmit_begin, onSubmit_request. simpl.
    destruct (FormSchema (availableQuantity st) (resourceId st) (quantity st))
      as [issues | data] eqn:E; simpl; [intro H; now elim H|].
    apply FormSchema_accepts in E. destruct E as (q & Hn & Hq & Hb & ->). simpl.
    destruct (selectedResource st) eqn:Hsel; simpl; [|intro H; now elim H].
    rewrite Hb. intros _. split; [discriminate|]. exists q. auto.
Qed.

(** C4, counterexample. With no resource selected and the default quantity
    [1], the submission does not end in a selection error: the schema,
    whose bound is still [0], rejects the quantity first, and the toast
    "Selection error" is never shown. *)
Lemma selection_error_not_first :
  selectedResource (ui loaded) = None
  /\ quantity (ui loaded) = Num 1
  /\ availableQuantity (ui loaded) = Num 0
  /\ errors (fst (handleSubmit "p1" (ui loaded) Ok)) = [too_big (Num 0)]
  /\ snd (handleSubmit "p1" (ui loaded) Ok) = []
  /\ outcome_of (handleSubmit "p1" (ui loaded) Ok) = ValidationError
  /\ outcome_of (handleSubmit "p1" (ui loaded) Ok) <> SelectionError.
Proof.
  repeat split; try reflexivity.
  vm_compute. discriminate.
Qed.

(** ** Submission *)

Lemma submit_enabled (st : State) :
  submit_disabled st = false <->
  loading st = false /\ selectedResource st <> None /\ isSubmitting st = false.
Proof.
  unfold submit_disabled.
  destruct (loading st), (selectedResource st), (isSubmitting st); simpl;
    split; intro H; try discriminate; try reflexivity;
    try (repeat split; congruence);
    destruct H as (H1 & H2 & H3); congruence.
Qed.

Lemma handleSubmit_begin_valid (projectId : string) (st : State) (q : Q) :
  selectedResource st <> None ->
  to_number (quantity st) = Some q -> 0 < q ->
  gt (Num q) (availableQuantity st) = false ->
  handleSubmit_begin projectId st
  = (set_errors [] (set_isSubmitting true st),
     [Insert (mkNewAllocation projectId (resourceId st) (Num q) false)],
     Some (mkNewAllocation projectId (resourceId st) (Num q) false)).
Proof.
  intros Hsel Hn Hq Hb.
  assert (E : FormSchema (availableQuantity st) (resourceId st) (quantity st)
              = inr (mkData (resourceId st) q)).
  { apply FormSchema_accepts. exists q. auto. }
  unfold handleSubmit_begin, onSubmit_request. simpl. rewrite E. simpl.
  destruct (selectedResource st); [|congruence]. now rewrite Hb.
Qed.

(** What a submission that issues an insert has checked. *)
Lemma handleSubmit_begin_request (projectId : string) (st : State)
      (st' : State) (evs : list event) (row : NewAllocation) :
  handleSubmit_begin projectId st = (st', evs, Some row) ->
  selectedResource st <> None
  /\ exists q, to_number (quantity st) = Some q /\ 0 < q
               /\ gt (Num q) (availableQuantity st) = false
               /\ row = mkNewAllocation projectId (resourceId st) (Num q) false
               /\ evs = [Insert row]
               /\ st' = set_errors [] (set_isSubmitting true st).
Proof.
  unfold handleSubmit_begin, onSubmit_request. simpl.
  destruct (FormSchema (availableQuantity st) (resourceId st) (quantity st))
    as [issues | data] eqn:E; [discriminate|].
  apply FormSchema_accepts in E. destruct E as (q & Hn & Hq & Hb & ->). simpl.
  destruct (selectedResource st); [|discriminate].
  rewrite Hb. intro H. injection H as <- <- <-.
  split; [discriminate|]. exists q. repeat split; assumption.
Qed.

(** C5. A submission that passes every check issues one insert, of a row
    with [consumed = false] and the given project, resource and quantity.
    When the store accepts it, that row and no other is added to the
    collection and [onResourceAdded] is called once; when the store
    refuses, nothing is added and [onResourceAdded] is not called. *)
Theorem valid_submission_persists_once
        (projectId : string) (w : World) (q : Q) :
  submit_disabled (ui w) = false ->
  to_number (quantity (ui w)) = Some q -> 0 < q ->
  gt (Num q) (availableQuantity (ui w)) = false ->
  let row := mkNewAllocation projectId (resourceId (ui w)) (Num q) false in
  let requested := step projectId w Submit in
  let accepted := step projectId requested (InsertAnswered Ok) in
  let refused := step projectId requested (InsertAnswered Error) in
  inflight requested = Some row
  /\ store requested = store w
  /\ log requested = (log w ++ [Insert row])%list
  /\ store accepted = (store w ++ [row])%list
  /\ log accepted = (log w ++ [Insert row; Toast toast_resource_added; OnResourceAdded])%list
  /\ count is_onResourceAdded (log accepted)
     = S (count is_onResourceAdded (log w))
  /\ count is_insert (log accepted) = S (count is_insert (log w))
  /\ inflight accepted = None
  /\ store refused = store w
  /\ count is_onResourceAdded (log refused) = count is_onResourceAdded (log w).
Proof.
  intros Hen Hn Hq Hb row requested accepted refused.
  pose proof Hen as Hen'. apply submit_enabled in Hen'.
  destruct Hen' as (_ & Hsel & _).
  assert (Hreq : requested
                 = mkWorld (set_errors [] (set_isSubmitting true (ui w))) (store w)
                           (Some row) (log w ++ [Insert row])).
  { unfold requested, step. rewrite Hen.
    now rewrite (handleSubmit_begin_valid projectId (ui w) q Hsel Hn Hq Hb). }
  unfold accepted, refused. rewrite Hreq. simpl.
  unfold count. rewrite <- !app_assoc. simpl.
  rewrite !filter_app, !length_app. simpl.
  repeat split; try reflexivity; lia.
Qed.

Lemma gt_Num_false (q a : Q) : gt (Num q) (Num a) = false <-> q <= a.
Proof. unfold gt. apply lt_Num_false. Qed.

(** A quantity equal to the bound is within it. *)
Lemma quantity_at_bound_passes (q a : Q) : q == a -> gt (Num q) (Num a) = false.
Proof. intro H. apply gt_Num_false. lra. Qed.

(** ** Reachable worlds *)

Lemma run_snoc (projectId : string) (inputs : list input) (i : input) :
  run projectId (inputs ++ [i]) = step projectId (run projectId inputs) i.
Proof. unfold run. now rewrite fold_left_app. Qed.

Lemma reachable_start (projectId : string) : reachable projectId start.
Proof. now exists []. Qed.

Lemma reachable_step (projectId : string) (w : World) (i : input) :
  reachable projectId w -> reachable projectId (step projectId w i).
Proof.
  intros [inputs ->]. exists (inputs ++ [i])%list. now rewrite run_snoc.
Qed.

Lemma reachable_ind (projectId : string) (P : World -> Prop) :
  P start ->
  (forall w i, reachable projectId w -> P w -> P (step projectId w i)) ->
  forall w, reachable projectId w -> P w.
Proof.
  intros Hstart Hstep w [inputs ->].
  induction inputs as [|i inputs IH] using rev_ind.
  - exact Hstart.
  - rewrite run_snoc. apply Hstep; [now exists inputs | exact IH].
Qed.

Lemma find_resource_some (id : string) (l : list Resource.t) (r : Resource.t) :
  find_resource id l = Some r -> In r l /\ Resource.id r = id.
Proof.
  unfold find_resource. intro H. apply find_some in H.
  destruct H as [Hin Heq]. now apply String.eqb_eq in Heq.
Qed.

Lemma offered_find (id : string) (st : State) :
  offered id st = true -> exists r, find_resource id (resources st) = Some r.
Proof.
  unfold offered, find_resource. intro H.
  apply existsb_exists in H. destruct H as (r & Hin & Hr).
  destruct (find (fun r0 => String.eqb (Resource.id r0) id) (resources st)) as [r'|] eqn:E.
  - now exists r'.
  - exfalso. apply (find_none _ _ E) in Hin. congruence.
Qed.

Lemma in_stock_bound (r : Resource.t) :
  in_stock r = true ->
  or_else (Resource.available r) (Resource.quantity r) = Resource.available r.
Proof.
  unfold in_stock. intro H. apply gt_zero in H. destruct H as (q & Hq & Hpos).
  unfold or_else. rewrite Hq. now rewrite (truthy_positive q Hpos).
Qed.

Lemma availableResources_in_stock
      (resourcesData : list Resource.t) (allocationsData : list Allocation.t) :
  Forall (fun r => in_stock r = true) (availableResources resourcesData allocationsData).
Proof.
  apply Forall_forall. intros r Hr. unfold availableResources in Hr.
  now apply filter_In in Hr.
Qed.

(** The selection effect keeps the invariant whenever the offered
    resources are in stock. *)
Lemma selection_effect_invariant (st : State) (db : list NewAllocation)
      (pending : option NewAllocation) (evs : list event) :
  invariant (mkWorld st db pending evs) ->
  invariant (mkWorld (selection_effect st) db pending evs).
Proof.
  unfold selection_effect.
  destruct (String.eqb (resourceId st) ""); [tauto|].
  destruct (find_resource (resourceId st) (resources st)) as [r|] eqn:E; [|tauto].
  intros (Hres & Hnone & Hsome & Hfl). simpl in *.
  apply find_resource_some in E. destruct E as [Hin _].
  assert (Hr : in_stock r = true).
  { destruct Hres as [Hres _]. rewrite Forall_forall in Hres. now apply Hres. }
  unfold invariant. simpl. split; [exact Hres|]. split; [discriminate|]. split.
  - intros r' Hr'. injection Hr' as <-. split; [exact Hr|]. now apply in_stock_bound.
  - intros row Hrow. destruct (Hfl row Hrow) as (H1 & H2 & H3).
    repeat split; try assumption. discriminate.
Qed.

Lemma invariant_start : invariant start.
Proof.
  unfold invariant, start. simpl. split; [split; [constructor|reflexivity]|].
  split; [reflexivity|]. split; discriminate.
Qed.

Lemma invariant_step (projectId : string) (w : World) (i : input) :
  invariant w -> invariant (step projectId w i).
Proof.
  intro Hinv. destruct w as [st db pending evs].
  destruct i as [rd ad| |id|v| |r]; unfold step; simpl.
  - destruct (loading st) eqn:Hl; [|exact Hinv].
    apply selection_effect_invariant.
    destruct Hinv as (Hres & Hnone & Hsome & Hfl). simpl in *.
    split; [split; [apply availableResources_in_stock|discriminate]|].
    split; [exact Hnone|]. split; [exact Hsome|]. simpl.
    intros row Hrow. destruct (Hfl row Hrow) as (_ & H2 & _). congruence.
  - destruct (loading st) eqn:Hl; [|exact Hinv].
    destruct Hinv as (Hres & Hnone & Hsome & Hfl). simpl in *.
    split; [split; [apply Hres|discriminate]|].
    split; [exact Hnone|]. split; [exact Hsome|]. simpl.
    intros row Hrow. destruct (Hfl row Hrow) as (_ & H2 & _). congruence.
  - destruct (negb (loading st) && offered id st && negb (String.eqb id (resourceId st)));
      [|exact Hinv].
    apply selection_effect_invariant. exact Hinv.
  - destruct (selectedResource st) eqn:Hsel; simpl; exact Hinv.
  - destruct (submit_disabled st) eqn:Hdis; [exact Hinv|].
    apply submit_enabled in Hdis. destruct Hdis as (Hl & Hsel & Hsub).
    destruct Hinv as (Hres & Hnone & Hsome & Hfl). simpl in *.
    destruct (handleSubmit_begin projectId st) as [[st' evs'] req] eqn:E.
    destruct req as [row|].
    + apply handleSubmit_begin_request in E.
      destruct E as (_ & q & _ & _ & _ & _ & _ & ->).
      split; [exact Hres|]. split; [exact Hnone|]. split; [exact Hsome|]. simpl.
      intros _ _. auto.
    + assert (Hst : resources st' = resources st
                    /\ selectedResource st' = selectedResource st
                    /\ availableQuantity st' = availableQuantity st
                    /\ loading st' = loading st).
      { revert E. unfold handleSubmit_begin, onSubmit_request. simpl.
        destruct (FormSchema (availableQuantity st) (resourceId st) (quantity st))
          as [issues | data]; simpl.
        - intro E. injection E as <- _. simpl. auto.
        - destruct (selectedResource st) eqn:Es; [|congruence].
          destruct (gt (Num (data_quantity data)) (availableQuantity st)); intro E.
          + injection E as <- _. simpl. auto 6.
          + discriminate. }
      destruct Hst as (E1 & E2 & E3 & E4).
      unfold invariant. simpl. rewrite E1, E2, E3, E4.
      split; [exact Hres|]. split; [exact Hnone|]. split; [exact Hsome|].
      discriminate.
  - destruct pending as [row|]; [|exact Hinv].
    destruct Hinv as (Hres & Hnone & Hsome & Hfl). simpl in *.
    split; [exact Hres|]. split; [exact Hnone|]. split; [exact Hsome|]. simpl.
    discriminate.
Qed.

Lemma reachable_invariant (projectId : string) (w : World) :
  reachable projectId w -> invariant w.
Proof.
  apply reachable_ind.
  - apply invariant_start.
  - intros w' i _ H. now apply invariant_step.
Qed.

(** Only a submission issues an insert: no other turn of the event loop
    puts a request in flight or adds one to the log. *)
Lemma only_submit_inserts (projectId : string) (w : World) (i : input) :
  i <> Submit -> inflight w = None ->
  inflight (step projectId w i) = None
  /\ count is_insert (log (step projectId w i)) = count is_insert (log w).
Proof.
  intros Hi Hfl. destruct w as [st db pending evs]. simpl in Hfl. subst pending.
  destruct i as [rd ad| |id|v| |r]; unfold step; simpl.
  - destruct (loading st); simpl; auto.
  - destruct (loading st); simpl; [|auto].
    split; [reflexivity|]. unfold count. rewrite filter_app, length_app. simpl. lia.
  - destruct (negb (loading st) && offered id st && negb (String.eqb id (resourceId st)));
      simpl; auto.
  - destruct (selectedResource st); simpl; auto.
  - congruence.
  - auto.
Qed.

(** C8. When the store refuses the insert, the toast "Error" (destructive,
    carrying nothing of the cause) is shown, the collection is left as it
    was, no insert is issued again, neither at once nor by any later turn
    other than a new submission, and [isSubmitting] is lowered, as it is
    when the store accepts; nothing else of the form changes and the submit
    button is enabled again. *)
Theorem refused_insert_recovers
        (projectId : string) (w : World) (row : NewAllocation) :
  reachable projectId w -> inflight w = Some row ->
  let refused := step projectId w (InsertAnswered Error) in
  let accepted := step projectId w (InsertAnswered Ok) in
  log refused = (log w ++ [ConsoleError; Toast toast_error])%list
  /\ title toast_error = "Error"
  /\ destructive toast_error = true
  /\ store refused = store w
  /\ inflight refused = None
  /\ count is_insert (log refused) = count is_insert (log w)
  /\ (forall i, i <> Submit ->
                inflight (step projectId refused i) = None
                /\ count is_insert (log (step projectId refused i))
                   = count is_insert (log w))
  /\ isSubmitting (ui w) = true
  /\ isSubmitting (ui refused) = false
  /\ isSubmitting (ui accepted) = false
  /\ ui refused = set_isSubmitting false (ui w)
  /\ submit_disabled (ui refused) = false.
Proof.
  intros Hreach Hfl refused accepted.
  apply reachable_invariant in Hreach.
  destruct Hreach as (_ & _ & _ & Hpending).
  destruct (Hpending row Hfl) as (Hsub & Hload & Hsel).
  assert (Hcount : count is_insert (log refused) = count is_insert (log w)).
  { unfold refused, step. rewrite Hfl. simpl.
    unfold count. rewrite filter_app, length_app. simpl. lia. }
  assert (Hnone : inflight refused = None).
  { unfold refused, step. now rewrite Hfl. }
  split; [unfold refused, step; now rewrite Hfl|].
  split; [reflexivity|]. split; [reflexivity|].
  split; [unfold refused, step; now rewrite Hfl|].
  split; [exact Hnone|]. split; [exact Hcount|].
  split.
  { intros i Hi. rewrite <- Hcount. now apply only_submit_inserts. }
  split; [exact Hsub|].
  split; [unfold refused, step; now rewrite Hfl|].
  split; [unfold accepted, step; now rewrite Hfl|].
  split; [unfold refused, step; now rewrite Hfl|].
  apply submit_enabled. unfold refused, step. rewrite Hfl. simpl. auto.
Qed.

(** Whatever a reachable world submits is within the availability of the
    resource selected at that moment. *)
Lemma submitted_quantity_bounded
      (projectId : string) (w : World) (row : NewAllocation) :
  reachable projectId w ->
  submit_disabled (ui w) = false ->
  inflight (step projectId w Submit) = Some row ->
  exists r a q,
    selectedResource (ui w) = Some r
    /\ Resource.available r = Num a
    /\ availableQuantity (ui w) = Num a
    /\ to_number (quantity (ui w)) = Some q
    /\ row = mkNewAllocation projectId (resourceId (ui w)) (Num q) false
    /\ 0 < q /\ q <= a.
Proof.
  intros Hreach Hen Hrow.
  apply reachable_invariant in Hreach. destruct Hreach as (_ & _ & Hsome & _).
  unfold step in Hrow. rewrite Hen in Hrow.
  destruct (handleSubmit_begin projectId (ui w)) as [[st' evs] req] eqn:E.
  simpl in Hrow. subst req.
  apply handleSubmit_begin_request in E.
  destruct E as (Hsel & q & Hn & Hq & Hb & -> & _ & _).
  destruct (selectedResource (ui w)) as [r|] eqn:Er; [|congruence].
  destruct (Hsome r eq_refl) as (Hstock & Hbound).
  unfold in_stock in Hstock. apply gt_zero in Hstock.
  destruct Hstock as (a & Ha & Hpos).
  rewrite Hbound, Ha in Hb. apply gt_Num_false in Hb.
  exists r, a, q. rewrite Hbound, Ha. repeat split; assumption.
Qed.

(** C6. Choosing another resource in a reachable world selects it, resets
    the quantity to [1] and makes its [available] the bound, all in the
    same turn; and in every reachable world a submission that issues an
    insert asks for a positive quantity within the [available] of the
    resource selected then, so a quantity above the current bound is never
    sent. *)
Theorem selection_resets_quantity_and_bound (projectId : string) :
  (forall (w : World) (id : string),
      reachable projectId w ->
      offered id (ui w) = true -> id <> "" -> id <> resourceId (ui w) ->
      let w' := step projectId w (SelectResource id) in
      exists r a,
        find_resource id (resources (ui w)) = Some r
        /\ Resource.id r = id
        /\ selectedResource (ui w') = Some r
        /\ resourceId (ui w') = id
        /\ quantity (ui w') = Num 1
        /\ Resource.available r = Num a /\ 0 < a
        /\ availableQuantity (ui w') = Num a)
  /\ (forall (w : World) (row : NewAllocation),
         reachable projectId w ->
         submit_disabled (ui w) = false ->
         inflight (step projectId w Submit) = Some row ->
         exists r a q,
           selectedResource (ui w) = Some r
           /\ Resource.available r = Num a
           /\ availableQuantity (ui w) = Num a
           /\ new_quantity row = Num q
           /\ 0 < q /\ q <= a).
Proof.
  split.
  - intros w id Hreach Hoff Hid Hnew w'.
    apply reachable_invariant in Hreach.
    destruct Hreach as ((Hres & Hload) & _).
    destruct (offered_find id (ui w) Hoff) as (r & Hfind).
    pose proof (find_resource_some id _ r Hfind) as [Hin Hrid].
    assert (Hl : loading (ui w) = false).
    { destruct (loading (ui w)); [|reflexivity].
      rewrite (Hload eq_refl) in Hin. contradiction. }
    assert (Hstock : in_stock r = true).
    { rewrite Forall_forall in Hres. now apply Hres. }
    pose proof (in_stock_bound r Hstock) as Hbound.
    unfold in_stock in Hstock. apply gt_zero in Hstock.
    destruct Hstock as (a & Ha & Hpos).
    assert (E1 : String.eqb id (resourceId (ui w)) = false)
      by now apply String.eqb_neq.
    assert (E2 : String.eqb id "" = false) by now apply String.eqb_neq.
    assert (Hw' : ui w' = select r (set_resourceId id (ui w))).
    { unfold w', step. rewrite Hl, Hoff, E1. simpl.
      unfold selection_effect. simpl. now rewrite E2, Hfind. }
    exists r, a. rewrite Hw'. simpl. rewrite Hbound.
    repeat split; assumption.
  - intros w row Hreach Hen Hrow.
    destruct (submitted_quantity_bounded projectId w row Hreach Hen Hrow)
      as (r & a & q & H1 & H2 & H3 & _ & -> & H5 & H6).
    exists r, a, q. repeat split; assumption.
Qed.

(** ** The computation on the heap *)

Import Heap.
Local Open Scope heap_scope.

Lemma extends_refl (h : heap) : extends h h.
Proof. exists []. now rewrite app_nil_r. Qed.

Lemma extends_trans (h1 h2 h3 : heap) : extends h1 h2 -> extends h2 h3 -> extends h1 h3.
Proof.
  intros [f1 ->] [f2 ->]. exists (f1 ++ f2)%list. now rewrite app_assoc.
Qed.

Lemma extends_alloc (h : heap) (o : object) : extends h (h ++ [o])%list.
Proof. now exists [o]. Qed.

(** An object of the old heap is found unchanged in the new one. *)
Lemma extends_lookup (h h' : heap) (p : ref) (o : object) :
  extends h h' -> nth_error h p = Some o -> nth_error h' p = Some o.
Proof.
  intros [fresh ->] H. rewrite nth_error_app1; [exact H|].
  apply nth_error_Some. congruence.
Qed.

Lemma lookup_alloc (h : heap) (o : object) :
  nth_error (h ++ [o])%list (List.length h) = Some o.
Proof. rewrite nth_error_app2, PeanoNat.Nat.sub_diag; [reflexivity|lia]. Qed.

Lemma extends_Forall2 {A : Type} (mk : A -> object) (h h' : heap)
      (refs : list ref) (rows : list A) :
  extends h h' ->
  Forall2 (fun q x => nth_error h q = Some (mk x)) refs rows ->
  Forall2 (fun q x => nth_error h' q = Some (mk x)) refs rows.
Proof.
  intros Hext H. induction H; constructor; eauto using extends_lookup.
Qed.

Lemma extends_holds_resources (h h' : heap) (p : ref) (rows : list Resource.t) :
  extends h h' -> holds_resources h p rows -> holds_resources h' p rows.
Proof.
  intros Hext (refs & Harr & Hrows). exists refs. split.
  - eapply extends_lookup; eauto.
  - eapply (extends_Forall2 resource_row); eauto.
Qed.

Lemma extends_holds_allocations (h h' : heap) (p : ref) (rows : list Allocation.t) :
  extends h h' -> holds_allocations h p rows -> holds_allocations h' p rows.
Proof.
  intros Hext (refs & Harr & Hrows). exists refs. split.
  - eapply extends_lookup; eauto.
  - eapply (extends_Forall2 allocation_row); eauto.
Qed.

Lemma get_resource_ok (h : heap) (p : ref) (r : Resource.t) :
  nth_error h p = Some (resource_row r) -> get_resource p h = Some (r, h).
Proof. intro H. unfold get_resource, bind, deref. now rewrite H. Qed.

Lemma get_allocation_ok (h : heap) (p : ref) (a : Allocation.t) :
  nth_error h p = Some (allocation_row a) -> get_allocation p h = Some (a, h).
Proof. intro H. unfold get_allocation, bind, deref. now rewrite H. Qed.

Lemma get_array_ok (h : heap) (p : ref) (elements : list ref) :
  nth_error h p = Some (array elements) -> get_array p h = Some (elements, h).
Proof. intro H. unfold get_array, bind, deref. now rewrite H. Qed.

(** A [filter] whose callback only reads: the heap is left as it is and the
    references kept are those of the rows the predicate keeps. *)
Lemma filterM_reads {A : Type} (mk : A -> object) (cb : ref -> M bool) (keep : A -> bool)
      (h : heap) (refs : list ref) (rows : list A) :
  (forall q x, nth_error h q = Some (mk x) -> cb q h = Some (keep x, h)) ->
  Forall2 (fun q x => nth_error h q = Some (mk x)) refs rows ->
  exists kept,
    filterM cb refs h = Some (kept, h)
    /\ Forall2 (fun q x => nth_error h q = Some (mk x)) kept (filter keep rows).
Proof.
  intros Hcb H. induction H as [|q x refs rows Hq _ (kept & Hk & Hkept)].
  - exists []. split; [reflexivity|constructor].
  - simpl. unfold bind at 1. rewrite (Hcb q x Hq).
    unfold bind at 1. rewrite Hk. unfold ret.
    destruct (keep x).
    + exists (q :: kept). split; [reflexivity|now constructor].
    + exists kept. split; [reflexivity|assumption].
Qed.

(** The [reduce] of [fetchResources] reads the allocations and returns
    what [reduce_quantity] computes. *)
Lemma foldM_quantity (h : heap) (refs : list ref) (rows : list Allocation.t) :
  Forall2 (fun q a => nth_error h q = Some (allocation_row a)) refs rows ->
  forall init,
    foldM (fun sum alloc =>
             a <- get_allocation alloc ;;
             ret (add sum (or_else (Allocation.quantity a) (Num 0))))
          refs init h
    = Some (reduce_quantity rows init, h).
Proof.
  intro H. induction H as [|q a refs rows Hq _ IH]; intro init.
  - reflexivity.
  - simpl. unfold bind at 1. unfold bind at 1.
    rewrite (get_allocation_ok h q a Hq). unfold ret at 1.
    rewrite IH. reflexivity.
Qed.

Lemma bind_ok {A B : Type} (m : M A) (k : A -> M B) (h h' : heap) (x : A) :
  m h = Some (x, h') -> bind m k h = k x h'.
Proof. intro H. unfold bind. now rewrite H. Qed.

(** One call of the [map] callback: it allocates the filtered array and
    the annotated copy of the row, and touches nothing else. *)
Lemma withAvailability_ok (h : heap) (allocationsData p : ref)
      (rows : list Allocation.t) (r : Resource.t) :
  holds_allocations h allocationsData rows ->
  nth_error h p = Some (resource_row r) ->
  exists q h',
    map_callback allocationsData p h = Some (q, h')
    /\ extends h h'
    /\ nth_error h' q = Some (resource_row (withAvailability rows r)).
Proof.
  intros (refs & Harr & Hrows) Hp.
  destruct (filterM_reads allocation_row
              (fun alloc =>
                 a <- get_allocation alloc ;;
                 r0 <- get_resource p ;;
                 ret (String.eqb (Allocation.resource_id a) (Resource.id r0)
                      && negb (Allocation.consumed a)))
              (references r) h refs rows) as (kept & Hkept & Hkrows).
  { intros q x Hq.
    rewrite (bind_ok _ _ h h x (get_allocation_ok h q x Hq)).
    rewrite (bind_ok _ _ h h r (get_resource_ok h p r Hp)).
    reflexivity. }
  { exact Hrows. }
  set (h1 := (h ++ [array kept])%list).
  assert (Hext1 : extends h h1) by apply extends_alloc.
  assert (Hfilter : array_filter
                      (fun alloc =>
                         a <- get_allocation alloc ;;
                         r0 <- get_resource p ;;
                         ret (String.eqb (Allocation.resource_id a) (Resource.id r0)
                              && negb (Allocation.consumed a)))
                      allocationsData h
                    = Some (List.length h, h1)).
  { unfold array_filter.
    rewrite (bind_ok _ _ h h refs (get_array_ok h allocationsData refs Harr)).
    rewrite (bind_ok _ _ h h kept Hkept). reflexivity. }
  assert (Hreduce : array_reduce
                      (fun sum alloc =>
                         a <- get_allocation alloc ;;
                         ret (add sum (or_else (Allocation.quantity a) (Num 0))))
                      (List.length h) (Num 0) h1
                    = Some (allocatedQuantity r rows, h1)).
  { unfold array_reduce.
    rewrite (bind_ok _ _ h1 h1 kept (get_array_ok h1 _ kept (lookup_alloc h _))).
    apply foldM_quantity.
    apply (extends_Forall2 allocation_row h h1); assumption. }
  exists (List.length h1), (h1 ++ [resource_row (withAvailability rows r)])%list.
  split; [|split].
  - unfold map_callback.
    rewrite (bind_ok _ _ h h1 _ Hfilter).
    rewrite (bind_ok _ _ h1 h1 _ Hreduce).
    rewrite (bind_ok _ _ h1 h1 r
               (get_resource_ok h1 p r (extends_lookup h h1 p _ Hext1 Hp))).
    reflexivity.
  - eapply extends_trans; [exact Hext1|apply extends_alloc].
  - apply lookup_alloc.
Qed.

(** [map] over the rows: the heap only grows and the new array elements
    are the annotated rows, in order. *)
Lemma mapM_withAvailability (allocationsData : ref) (rows : list Allocation.t)
      (refs : list ref) (rs : list Resource.t) :
  forall h,
    holds_allocations h allocationsData rows ->
    Forall2 (fun q r => nth_error h q = Some (resource_row r)) refs rs ->
    exists out h',
      mapM (map_callback allocationsData) refs h = Some (out, h')
      /\ extends h h'
      /\ Forall2 (fun q r => nth_error h' q = Some (resource_row r))
                 out (map (withAvailability rows) rs).
Proof.
  revert rs. induction refs as [|p refs IH]; intros rs h Hals Hrs.
  - inversion Hrs; subst. exists [], h. split; [reflexivity|].
    split; [apply extends_refl|constructor].
  - inversion Hrs as [|p' r refs' rs' Hp Hrest]; subst.
    destruct (withAvailability_ok h allocationsData p rows r Hals Hp)
      as (q & h1 & Hcall & Hext1 & Hq).
    destruct (IH rs' h1) as (out & h2 & Hmap & Hext2 & Hout).
    { eapply extends_holds_allocations; eauto. }
    { eapply (extends_Forall2 resource_row); eauto. }
    exists (q :: out), h2. split; [|split].
    + simpl. rewrite (bind_ok _ _ h h1 q Hcall).
      rewrite (bind_ok _ _ h1 h2 out Hmap). reflexivity.
    + eapply extends_trans; eauto.
    + simpl. constructor; [|exact Hout].
      eapply extends_lookup; eauto.
Qed.

(** The whole computation, run on a heap that holds the two input arrays. *)
Lemma computeAvailability_ok (h : heap) (resourcesData allocationsData : ref)
      (rs : list Resource.t) (rows : list Allocation.t) :
  holds_resources h resourcesData rs ->
  holds_allocations h allocationsData rows ->
  exists out h',
    computeAvailability resourcesData allocationsData h = Some (out, h')
    /\ extends h h'
    /\ holds_resources h' out (availableResources rs rows).
Proof.
  intros (refs & Harr & Hrs) Hals.
  destruct (mapM_withAvailability allocationsData rows refs rs h Hals Hrs)
    as (mapped & h1 & Hmap & Hext1 & Hmapped).
  set (h2 := (h1 ++ [array mapped])%list).
  assert (Hext2 : extends h1 h2) by apply extends_alloc.
  destruct (filterM_reads resource_row
              (fun resource =>
                 r <- get_resource resource ;;
                 ret (gt (Resource.available r) (Num 0)))
              in_stock h2 mapped (map (withAvailability rows) rs))
    as (kept & Hkept & Hkrows).
  { intros q x Hq.
    rewrite (bind_ok _ _ h2 h2 x (get_resource_ok h2 q x Hq)). reflexivity. }
  { apply (extends_Forall2 resource_row h1 h2); assumption. }
  exists (List.length h2), (h2 ++ [array kept])%list.
  split; [|split].
  - unfold computeAvailability, array_map.
    rewrite (bind_ok _ _ h h2 (List.length h1)).
    + unfold array_filter.
      rewrite (bind_ok _ _ h2 h2 mapped (get_array_ok h2 _ mapped (lookup_alloc h1 _))).
      rewrite (bind_ok _ _ h2 h2 kept Hkept). reflexivity.
    + rewrite (bind_ok _ _ h h refs (get_array_ok h resourcesData refs Harr)).
      rewrite (bind_ok _ _ h h1 mapped Hmap). reflexivity.
  - eapply extends_trans; [exact Hext1|].
    eapply extends_trans; [exact Hext2|apply extends_alloc].
  - exists kept. split; [apply lookup_alloc|].
    apply (extends_Forall2 resource_row h2); [apply extends_alloc|exact Hkrows].
Qed.

(** *** No write to an existing object, on any heap *)

Lemma grows_ret {A : Type} (x : A) : grows (ret x).
Proof. intros h y h' H. injection H as _ <-. apply extends_refl. Qed.

Lemma grows_stuck {A : Type} : grows (@stuck A).
Proof. intros h y h' H. discriminate. Qed.

Lemma grows_deref (p : ref) : grows (deref p).
Proof.
  intros h o h' H. unfold deref in H.
  destruct (nth_error h p); [|discriminate].
  injection H as _ <-. apply extends_refl.
Qed.

Lemma grows_alloc (o : object) : grows (alloc o).
Proof. intros h p h' H. injection H as _ <-. apply extends_alloc. Qed.

Lemma grows_bind {A B : Type} (m : M A) (k : A -> M B) :
  grows m -> (forall x, grows (k x)) -> grows (bind m k).
Proof.
  intros Hm Hk h y h' H. unfold bind in H.
  destruct (m h) as [[x h1]|] eqn:E; [|discriminate].
  eapply extends_trans; [eapply Hm; eauto|eapply Hk; eauto].
Qed.

Lemma grows_get_resource (p : ref) : grows (get_resource p).
Proof.
  apply grows_bind; [apply grows_deref|].
  intros [r|a|l]; auto using grows_ret, grows_stuck.
Qed.

Lemma grows_get_allocation (p : ref) : grows (get_allocation p).
Proof.
  apply grows_bind; [apply grows_deref|].
  intros [r|a|l]; auto using grows_ret, grows_stuck.
Qed.

Lemma grows_get_array (p : ref) : grows (get_array p).
Proof.
  apply grows_bind; [apply grows_deref|].
  intros [r|a|l]; auto using grows_ret, grows_stuck.
Qed.

Lemma grows_mapM {A B : Type} (f : A -> M B) (l : list A) :
  (forall x, grows (f x)) -> grows (mapM f l).
Proof.
  intro Hf. induction l as [|x l IH]; simpl.
  - apply grows_ret.
  - apply grows_bind; [apply Hf|]. intro y.
    apply grows_bind; [exact IH|]. intro ys. apply grows_ret.
Qed.

Lemma grows_filterM {A : Type} (p : A -> M bool) (l : list A) :
  (forall x, grows (p x)) -> grows (filterM p l).
Proof.
  intro Hp. induction l as [|x l IH]; simpl.
  - apply grows_ret.
  - apply grows_bind; [apply Hp|]. intro b.
    apply grows_bind; [exact IH|]. intro ys. apply grows_ret.
Qed.

Lemma grows_foldM {A B : Type} (f : B -> A -> M B) (l : list A) :
  (forall acc x, grows (f acc x)) -> forall acc, grows (foldM f l acc).
Proof.
  intro Hf. induction l as [|x l IH]; intro acc; simpl.
  - apply grows_ret.
  - apply grows_bind; [apply Hf|]. exact IH.
Qed.

Lemma grows_array_filter (p : ref -> M bool) (arr : ref) :
  (forall x, grows (p x)) -> grows (array_filter p arr).
Proof.
  intro Hp. apply grows_bind; [apply grows_get_array|]. intro elements.
  apply grows_bind; [now apply grows_filterM|]. intro kept. apply grows_alloc.
Qed.

Lemma grows_map_callback (allocationsData resource : ref) :
  grows (map_callback allocationsData resource).
Proof.
  apply grows_bind.
  - apply grows_array_filter. intro alloc.
    apply grows_bind; [apply grows_get_allocation|]. intro a.
    apply grows_bind; [apply grows_get_resource|]. intro r. apply grows_ret.
  - intro allocations. apply grows_bind.
    + apply grows_bind; [apply grows_get_array|]. intro elements.
      apply grows_foldM. intros sum alloc.
      apply grows_bind; [apply grows_get_allocation|]. intro a. apply grows_ret.
    + intro allocated. apply grows_bind; [apply grows_get_resource|].
      intro r. apply grows_alloc.
Qed.

Lemma grows_computeAvailability (resourcesData allocationsData : ref) :
  grows (computeAvailability resourcesData allocationsData).
Proof.
  apply grows_bind.
  - apply grows_bind; [apply grows_get_array|]. intro elements.
    apply grows_bind; [|intro out; apply grows_alloc].
    apply grows_mapM. intro x. apply grows_map_callback.
  - intro mapped. apply grows_array_filter. intro resource.
    apply grows_bind; [apply grows_get_resource|]. intro r. apply grows_ret.
Qed.

(** C7. Run on a heap that holds the two input arrays, the computation
    returns a new array holding [availableResources] of their contents and
    leaves every object that was on the heap as it was, so the inputs still
    hold the same rows; run again on the resulting heap it returns an array
    with the same contents.  On any heap at all, a run that returns has only
    added objects. *)
Theorem computeAvailability_pure (h : heap) (resourcesData allocationsData : ref)
        (rs : list Resource.t) (rows : list Allocation.t) :
  holds_resources h resourcesData rs ->
  holds_allocations h allocationsData rows ->
  exists out1 h1 out2 h2,
    computeAvailability resourcesData allocationsData h = Some (out1, h1)
    /\ computeAvailability resourcesData allocationsData h1 = Some (out2, h2)
    /\ extends h h1
    /\ (forall p o, nth_error h p = Some o -> nth_error h1 p = Some o)
    /\ holds_resources h1 resourcesData rs
    /\ holds_allocations h1 allocationsData rows
    /\ holds_resources h1 out1 (availableResources rs rows)
    /\ holds_resources h2 out1 (availableResources rs rows)
    /\ holds_resources h2 out2 (availableResources rs rows)
    /\ grows (computeAvailability resourcesData allocationsData).
Proof.
  intros Hrs Hals.
  destruct (computeAvailability_ok h resourcesData allocationsData rs rows Hrs Hals)
    as (out1 & h1 & Hrun1 & Hext1 & Hout1).
  pose proof (extends_holds_resources h h1 _ _ Hext1 Hrs) as Hrs1.
  pose proof (extends_holds_allocations h h1 _ _ Hext1 Hals) as Hals1.
  destruct (computeAvailability_ok h1 resourcesData allocationsData rs rows Hrs1 Hals1)
    as (out2 & h2 & Hrun2 & Hext2 & Hout2).
  exists out1, h1, out2, h2.
  split; [exact Hrun1|]. split; [exact Hrun2|]. split; [exact Hext1|].
  split; [intros p o; now apply extends_lookup|].
  split; [exact Hrs1|]. split; [exact Hals1|]. split; [exact Hout1|].
  split; [eapply extends_holds_resources; eauto|].
  split; [exact Hout2|apply grows_computeAvailability].
Qed.

(** ** The examples of the specification, and the theorems at work *)

(** 100 with 85 allocated is "Low Stock" with 15 available; 50 with no
    allocation is "Available"; 10 fully allocated is not offered. *)
Example sample_availability :
  map (fun r => (Resource.id r, Resource.status r,
                 Resource.allocated r, Resource.available r))
      (availableResources sample_resources sample_allocations)
  = [("r-cement", "Available", Num 0, Num 50);
     ("r-crane", "Low Stock", Num 85, Num 15)].
Proof. reflexivity. Qed.

Example sample_out_of_stock :
  Resource.status (withAvailability sample_allocations scaffold) = "Out of Stock"
  /\ Resource.available (withAvailability sample_allocations scaffold) = Num 0.
Proof. split; reflexivity. Qed.

(** With 50 available, 51 is refused by the schema and 50 is inserted. *)
Example sample_bounds :
  errors (fst (handleSubmit "p1" (set_quantity (Num 51) (ui cement_chosen)) Ok))
  = [too_big (Num 50)]
  /\ snd (handleSubmit "p1" (set_quantity (Num 51) (ui cement_chosen)) Ok) = []
  /\ snd (handleSubmit "p1" (ui cement_chosen) Ok)
     = [Insert (mkNewAllocation "p1" "r-cement" (Num 50) false);
        Toast toast_resource_added; OnResourceAdded].
Proof. repeat split; reflexivity. Qed.

(** A quantity of [0] or below is refused with no event at all. *)
Example sample_not_positive :
  errors (fst (handleSubmit "p1" (set_quantity (Num 0) (ui cement_chosen)) Ok))
  = [too_small]
  /\ snd (handleSubmit "p1" (set_quantity (Num 0) (ui cement_chosen)) Ok) = [].
Proof. split; reflexivity. Qed.

(** The literal [0.2] is [0x1.999999999999ap-3], [15 * 0.2] is [3] and
    [3 * 0.2] is not [0.6]. *)
Example binary64_products :
  Binary64.point_two = S754_finite false 7205759403792794 (-55)
  /\ SFmul Binary64.prec Binary64.emax (Binary64.of_Z 15) Binary64.point_two
     = Binary64.of_Z 3
  /\ SFmul Binary64.prec Binary64.emax (Binary64.of_Z 3) Binary64.point_two
     = S754_finite false 5404319552844596 (-53).
Proof. repeat split; vm_compute; reflexivity. Qed.

(** On every pair of whole numbers below 150 the status computed in double
    precision is the status computed over the rationals. *)
Example binary64_agrees : agrees_upto 150 = true.
Proof. vm_compute. reflexivity. Qed.

(** A [null] quantity between 60 and 25. *)
Lemma falsy_quantity_adds_zero_witness :
  truthy (Allocation.quantity crane_null) = false
  /\ or_else (Allocation.quantity crane_null) (Num 0) = Num 0
  /\ (exists s s',
         reduce_quantity ([crane_60] ++ crane_null :: [crane_25]) (Num 0) = Num s
         /\ reduce_quantity ([crane_60] ++ [crane_25]) (Num 0) = Num s'
         /\ s == s')
  /\ (forall l : list Allocation.t, exists s, reduce_quantity l (Num 0) = Num s).
Proof.
  split; [reflexivity|].
  apply (falsy_quantity_adds_zero crane_null [crane_60] [crane_25]). reflexivity.
Defined.

(** The crane, offered with 15 available of 100. *)
Lemma offered_resource_bound_witness :
  In (withAvailability sample_allocations crane)
     (availableResources sample_resources sample_allocations)
  /\ or_else (Resource.available (withAvailability sample_allocations crane))
             (Resource.quantity (withAvailability sample_allocations crane))
     = Num 15.
Proof.
  assert (Hin : In (withAvailability sample_allocations crane)
                   (availableResources sample_resources sample_allocations)).
  { right. left. reflexivity. }
  split; [exact Hin|].
  destruct (offered_resource_bound sample_resources sample_allocations
              (withAvailability sample_allocations crane) Hin) as (_ & Hor & _).
  rewrite Hor. reflexivity.
Defined.

(** Nothing selected: the schema answers first; [onSubmit] alone would
    show the selection toast. *)
Lemma submission_checks_in_order_witness :
  selectedResource (ui loaded) = None
  /\ outcome_of (handleSubmit "p1" (ui loaded) Ok) = ValidationError
  /\ onSubmit "p1" (ui loaded) (mkData "" 1) Ok = [Toast toast_selection_error].
Proof.
  destruct (submission_checks_in_order "p1" (ui loaded) Ok)
    as (Hschema & _ & _ & Hselection & _).
  split; [reflexivity|]. split.
  - apply Hschema. right. exists 1. split; [reflexivity|]. right. reflexivity.
  - apply Hselection. reflexivity.
Defined.

(** 50 of 50: one row when accepted, none when refused. *)
Lemma valid_submission_persists_once_witness :
  submit_disabled (ui cement_chosen) = false
  /\ to_number (quantity (ui cement_chosen)) = Some 50
  /\ availableQuantity (ui cement_chosen) = Num 50
  /\ store (step "p1" (step "p1" cement_chosen Submit) (InsertAnswered Ok))
     = [mkNewAllocation "p1" "r-cement" (Num 50) false]
  /\ store (step "p1" (step "p1" cement_chosen Submit) (InsertAnswered Error)) = [].
Proof.
  split; [reflexivity|]. split; [reflexivity|]. split; [reflexivity|].
  destruct (valid_submission_persists_once "p1" cement_chosen 50
              eq_refl eq_refl eq_refl eq_refl)
    as (_ & _ & _ & Hok & _ & _ & _ & _ & Herr & _).
  split; [exact Hok|exact Herr].
Defined.

(** The insert of the cement refused. *)
Lemma refused_insert_recovers_witness :
  reachable "p1" cement_requested
  /\ inflight cement_requested = Some (mkNewAllocation "p1" "r-cement" (Num 50) false)
  /\ isSubmitting (ui cement_requested) = true
  /\ isSubmitting (ui (step "p1" cement_requested (InsertAnswered Error))) = false
  /\ store (step "p1" cement_requested (InsertAnswered Error)) = [].
Proof.
  assert (Hreach : reachable "p1" cement_requested).
  { exists [FetchResolved sample_resources sample_allocations;
            SelectResource "r-cement"; TypeQuantity (Num 50); Submit].
    reflexivity. }
  split; [exact Hreach|]. split; [reflexivity|].
  destruct (refused_insert_recovers "p1" cement_requested
              (mkNewAllocation "p1" "r-cement" (Num 50) false) Hreach eq_refl)
    as (_ & _ & _ & Hstore & _ & _ & _ & Hbusy & Hidle & _).
  split; [exact Hbusy|]. split; [exact Hidle|exact Hstore].
Defined.

(** From the cement with 50 typed to the crane: quantity 1, bound 15. *)
Lemma selection_resets_quantity_and_bound_witness :
  reachable "p1" cement_chosen
  /\ quantity (ui cement_chosen) = Num 50
  /\ exists r a,
      find_resource "r-crane" (resources (ui cement_chosen)) = Some r
      /\ Resource.id r = "r-crane"
      /\ selectedResource (ui (step "p1" cement_chosen (SelectResource "r-crane")))
         = Some r
      /\ resourceId (ui (step "p1" cement_chosen (SelectResource "r-crane")))
         = "r-crane"
      /\ quantity (ui (step "p1" cement_chosen (SelectResource "r-crane"))) = Num 1
      /\ Resource.available r = Num a /\ 0 < a
      /\ availableQuantity (ui (step "p1" cement_chosen (SelectResource "r-crane")))
         = Num a.
Proof.
  assert (Hreach : reachable "p1" cement_chosen).
  { exists [FetchResolved sample_resources sample_allocations;
            SelectResource "r-cement"; TypeQuantity (Num 50)].
    reflexivity. }
  split; [exact Hreach|]. split; [reflexivity|].
  destruct (selection_resets_quantity_and_bound "p1") as (Hselect & _).
  apply (Hselect cement_chosen "r-crane" Hreach); [reflexivity| |]; discriminate.
Defined.

(** The sample heap. *)
Lemma computeAvailability_pure_witness :
  holds_resources sample_heap 3%nat sample_resources
  /\ holds_allocations sample_heap 9%nat sample_allocations
  /\ exists out h',
      computeAvailability 3%nat 9%nat sample_heap = Some (out, h')
      /\ extends sample_heap h'
      /\ holds_resources h' out (availableResources sample_resources sample_allocations).
Proof.
  assert (Hrs : holds_resources sample_heap 3%nat sample_resources).
  { exists [0; 1; 2]%nat. split; [reflexivity|]. repeat constructor. }
  assert (Hals : holds_allocations sample_heap 9%nat sample_allocations).
  { exists [4; 5; 6; 7; 8]%nat. split; [reflexivity|]. repeat constructor. }
  split; [exact Hrs|]. split; [exact Hals|].
  destruct (computeAvailability_pure sample_heap 3%nat 9%nat sample_resources
              sample_allocations Hrs Hals)
    as (out1 & h1 & _ & _ & Hrun & _ & Hext & _ & _ & _ & Hout & _).
  exists out1, h1. split; [exact Hrun|]. split; [exact Hext|exact Hout].
Defined.

(** * Further properties of the availability computation *)

Lemma allocations_app (r : Resource.t) (A B : list Allocation.t) :
  allocations r (A ++ B) = (allocations r A ++ allocations r B)%list.
Proof. unfold allocations. apply filter_app. Qed.

(** X1. An allocation that is consumed, or that references another
    resource, changes nothing of what is computed for a resource, wherever
    it stands in the list. *)
Theorem unrelated_allocation_ignored
        (r : Resource.t) (alloc : Allocation.t) (before after : list Allocation.t) :
  Allocation.consumed alloc = true
  \/ Allocation.resource_id alloc <> Resource.id r ->
  withAvailability (before ++ alloc :: after) r = withAvailability (before ++ after) r.
Proof.
  intro H.
  assert (Hrej : references r alloc = false).
  { unfold references. destruct H as [H | H].
    - rewrite H. apply andb_false_r.
    - apply String.eqb_neq in H. now rewrite H. }
  unfold withAvailability, allocatedQuantity.
  rewrite !allocations_app.
  change (alloc :: after) with ([alloc] ++ after)%list.
  rewrite allocations_app. unfold allocations at 2. simpl. rewrite Hrej.
  reflexivity.
Qed.



(** X3. A resource that no unconsumed allocation references keeps its
    whole quantity: when that is positive it is in stock and "Available",
    otherwise it is "Out of Stock" and not offered. *)
Theorem unallocated_resource
        (r : Resource.t) (A : list Allocation.t) (q : Q) :
  allocations r A = [] ->
  Resource.quantity r = Num q ->
  Resource.allocated (withAvailability A r) = Num 0
  /\ Resource.available (withAvailability A r) = Num (q - 0)
  /\ (0 < q ->
      in_stock (withAvailability A r) = true
      /\ Resource.status (withAvailability A r) = "Available")
  /\ (q <= 0 ->
      in_stock (withAvailability A r) = false
      /\ Resource.status (withAvailability A r) = "Out of Stock").
Proof.
  intros Hnone Hq.
  assert (Hal : allocatedQuantity r A = Num 0).
  { unfold allocatedQuantity. now rewrite Hnone. }
  unfold withAvailability, annotate, in_stock.
  cbn [Resource.allocated Resource.available Resource.status Resource.quantity].
  rewrite Hal, Hq.
  change (sub (Num q) (Num 0)) with (Num (q - 0)).
  split; [reflexivity|]. split; [reflexivity|]. split.
  - intro Hpos. split.
    + apply gt_zero. exists (q - 0). split; [reflexivity|lra].
    + unfold status_of. change (mul (Num q) (Num 0.2)) with (Num (q * 0.2)).
      assert (E1 : le (Num (q - 0)) (Num 0) = false) by (apply le_Num_false; lra).
      assert (E2 : lt (Num (q - 0)) (Num (q * 0.2)) = false)
        by (apply lt_Num_false; lra).
      now rewrite E1, E2.
  - intro Hneg. split.
    + unfold gt. apply lt_Num_false. lra.
    + unfold status_of.
      assert (E1 : le (Num (q - 0)) (Num 0) = true) by (apply le_Num; lra).
      now rewrite E1.
Qed.


Lemma allocatedQuantity_by_id (r r' : Resource.t) (ad : list Allocation.t) :
  Resource.id r = Resource.id r' -> allocatedQuantity r ad = allocatedQuantity r' ad.
Proof.
  intro H. unfold allocatedQuantity, allocations. f_equal.
  apply filter_ext. intro a. unfold references. now rewrite H.
Qed.

Lemma withAvailability_idempotent (ad : list Allocation.t) (r : Resource.t) :
  withAvailability ad (withAvailability ad r) = withAvailability ad r.
Proof.
  unfold withAvailability at 1 3.
  rewrite (allocatedQuantity_by_id (withAvailability ad r) r ad eq_refl).
  reflexivity.
Qed.

(** X6. The annotation looks only at the identifier and the quantity of a
    row: the [status], [allocated] and [available] a row arrives with are
    overwritten, so annotated rows are fixed points and running the
    computation on its own output gives that output again. *)
Theorem availableResources_idempotent
        (rd : list Resource.t) (ad : list Allocation.t) :
  (forall r status allocated available,
      withAvailability ad
        (Resource.mk (Resource.id r) (Resource.name r) (Resource.type r)
                     (Resource.unit r) (Resource.quantity r) (Resource.cost r)
                     (Resource.returnable r) status allocated available)
      = withAvailability ad r)
  /\ availableResources (availableResources rd ad) ad = availableResources rd ad.
Proof.
  split.
  - intros r status allocated available. unfold withAvailability.
    match goal with
    | |- annotate ?x (allocatedQuantity ?x ad) = _ =>
        rewrite (allocatedQuantity_by_id x r ad eq_refl)
    end.
    reflexivity.
  - unfold availableResources, resourcesWithAvailability.
    induction rd as [|r rd IH]; [reflexivity|].
    cbn [map filter].
    destruct (in_stock (withAvailability ad r)) eqn:E; [|exact IH].
    cbn [map filter]. rewrite withAvailability_idempotent, E.
    f_equal. exact IH.
Qed.

(** * Further properties of the schema *)

(** X7. For a bound that is a number, the schema accepts exactly the
    inputs that [Number] reads as a number [q] with [0 < q <= bound], and
    hands [onSubmit] that number with the [resourceId] of the form; no
    input of any kind is accepted when the bound is [0] or less. *)
Theorem schema_accepts_exactly (bound : Q) (id : string) (v : value) :
  (forall data,
      FormSchema (Num bound) id v = inr data <->
      exists q, to_number v = Some q /\ 0 < q /\ q <= bound /\ data = mkData id q)
  /\ (bound <= 0 -> exists i issues, FormSchema (Num bound) id v = inl (i :: issues)).
Proof.
  split.
  - intro data. rewrite FormSchema_accepts. split.
    + intros (q & Hn & Hq & Hb & Hd). exists q. apply gt_Num_false in Hb. auto.
    + intros (q & Hn & Hq & Hb & Hd). exists q. apply gt_Num_false in Hb. auto.
  - intro Hb. apply FormSchema_rejects.
    destruct (to_number v) as [q|]; [|now left].
    right. exists q. split; [reflexivity|].
    destruct (Qlt_le_dec 0 q) as [Hpos | Hneg]; [right|now left].
    unfold gt. apply lt_Num. lra.
Qed.

(** * Further properties of the component *)

Lemma count_app (p : event -> bool) (l1 l2 : list event) :
  count p (l1 ++ l2) = (count p l1 + count p l2)%nat.
Proof. unfold count. now rewrite filter_app, length_app. Qed.

Lemma accounting_ui (projectId : string) (st st' : State) (db : list NewAllocation)
      (fl : option NewAllocation) (evs : list event) :
  accounting projectId (mkWorld st db fl evs) ->
  accounting projectId (mkWorld st' db fl evs).
Proof. exact (fun H => H). Qed.

(** A submission that the button allows and that issues no insert was
    stopped by the schema and produced no event. *)
Lemma handleSubmit_begin_no_request (projectId : string) (st st' : State)
      (evs : list event) :
  handleSubmit_begin projectId st = (st', evs, None) ->
  selectedResource st <> None ->
  evs = [] /\ errors st' <> [].
Proof.
  unfold handleSubmit_begin, onSubmit_request. simpl.
  destruct (FormSchema (availableQuantity st) (resourceId st) (quantity st))
    as [issues | data] eqn:E.
  - intros H _. injection H as <- <-. simpl. split; [reflexivity|].
    unfold FormSchema in E.
    destruct (to_number (quantity st)); [|injection E as <-; discriminate].
    destruct (le (Num q) (Num 0)), (gt (Num q) (availableQuantity st));
      simpl in E; try discriminate; injection E as <-; discriminate.
  - apply FormSchema_accepts in E. destruct E as (q & _ & _ & Hb & ->). simpl.
    destruct (selectedResource st); [|congruence].
    rewrite Hb. discriminate.
Qed.

Lemma accounting_start (projectId : string) : accounting projectId start.
Proof.
  unfold accounting, start. simpl.
  split; [constructor|]. split; [discriminate|]. repeat split.
Qed.

Lemma accounting_step (projectId : string) (w : World) (i : input) :
  invariant w -> accounting projectId w -> accounting projectId (step projectId w i).
Proof.
  intros Hinv Hacc. destruct w as [st db fl evs].
  destruct i as [rd ad| |id|v| |r]; unfold step; cbn [ui store inflight log].
  - destruct (loading st); [|exact Hacc]. exact Hacc.
  - destruct (loading st); [|exact Hacc].
    destruct Hacc as (H1 & H2 & H3 & H4 & H5).
    unfold accounting, pending in *. cbn [ui store inflight log] in *.
    rewrite !count_app. rewrite H3, H4, H5.
    split; [exact H1|]. split; [exact H2|].
    unfold count. simpl. destruct fl; repeat split; lia.
  - destruct (negb (loading st) && offered id st && negb (String.eqb id (resourceId st)));
      exact Hacc.
  - destruct (is_none (selectedResource st)); exact Hacc.
  - destruct (submit_disabled st) eqn:Hdis; [exact Hacc|].
    apply submit_enabled in Hdis. destruct Hdis as (_ & Hsel & Hsub).
    assert (Hfl : fl = None).
    { destruct fl as [row|]; [|reflexivity].
      destruct Hinv as (_ & _ & _ & Hp). cbn [ui inflight] in Hp.
      destruct (Hp row eq_refl) as (Hs & _). congruence. }
    subst fl.
    destruct Hacc as (H1 & H2 & H3 & H4 & H5).
    unfold accounting, pending in *. cbn [ui store inflight log] in *.
    destruct (handleSubmit_begin projectId st) as [[st' evs'] req] eqn:E.
    destruct req as [row|].
    + apply handleSubmit_begin_request in E.
      destruct E as (_ & q & _ & Hq & _ & Hrow & -> & _).
      cbn [ui store inflight log]. rewrite !count_app, H3, H4, H5.
      split; [exact H1|]. split.
      { intros row' Hrow'. injection Hrow' as <-. rewrite Hrow.
        split; [reflexivity|]. split; [reflexivity|]. now exists q. }
      unfold count. simpl. repeat split; lia.
    + apply handleSubmit_begin_no_request in E; [|exact Hsel].
      destruct E as [-> _]. cbn [ui store inflight log]. rewrite !app_nil_r.
      split; [exact H1|]. split; [exact H2|]. auto.
  - destruct fl as [row|]; [|exact Hacc].
    destruct Hacc as (H1 & H2 & H3 & H4 & H5).
    unfold accounting, pending in *. cbn [ui store inflight log] in *.
    unfold handleSubmit_resume. cbn [ui store inflight log].
    rewrite !count_app, H3, H4, H5.
    destruct r; unfold count; simpl.
    + split; [apply Forall_app; split; [exact H1|constructor; [now apply H2|constructor]]|].
      split; [discriminate|]. rewrite length_app. simpl.
      repeat split; lia.
    + split; [exact H1|]. split; [discriminate|]. repeat split; lia.
Qed.

Lemma reachable_accounting (projectId : string) (w : World) :
  reachable projectId w -> accounting projectId w.
Proof.
  apply reachable_ind.
  - apply accounting_start.
  - intros w' i Hreach Hacc. apply accounting_step; [|exact Hacc].
    now apply (reachable_invariant projectId).
Qed.

(** X8. Every row the component has written, and the one it is waiting
    for, belongs to the project of the component, is not consumed and has
    a positive number as quantity. *)
Theorem written_rows_well_formed (projectId : string) (w : World) :
  reachable projectId w ->
  (forall row, In row (store w) ->
               new_project_id row = projectId
               /\ new_consumed row = false
               /\ exists q, new_quantity row = Num q /\ 0 < q)
  /\ (forall row, inflight w = Some row ->
                  new_project_id row = projectId
                  /\ new_consumed row = false
                  /\ exists q, new_quantity row = Num q /\ 0 < q).
Proof.
  intro Hreach. apply reachable_accounting in Hreach.
  destruct Hreach as (H1 & H2 & _). split.
  - intros row Hrow. rewrite Forall_forall in H1. now apply H1.
  - exact H2.
Qed.

(** X9. In every reachable world [onResourceAdded] has been called once
    for each row written, and every insert issued is accounted for: it was
    written, or answered with the toast "Error", or is still awaited. *)
Theorem log_accounts_for_store (projectId : string) (w : World) :
  reachable projectId w ->
  count is_onResourceAdded (log w) = List.length (store w)
  /\ count is_insert (log w)
     = (List.length (store w) + count is_toast_error (log w) + pending w)%nat
  /\ (pending w <= 1)%nat.
Proof.
  intro Hreach. apply reachable_accounting in Hreach.
  destruct Hreach as (_ & _ & H3 & H4 & _).
  split; [exact H3|]. split; [exact H4|].
  unfold pending. destruct (inflight w); lia.
Qed.

(** X10. The two toasts with which [onSubmit] returns early, "Selection
    error" and "Quantity error", are never shown: the button is disabled
    while nothing is selected, and the schema has already compared the
    quantity with the same bound. *)
Theorem early_return_toasts_never_shown (projectId : string) (w : World) :
  reachable projectId w ->
  forall e, In e (log w) -> is_early_return_toast e = false.
Proof.
  intros Hreach e He. apply reachable_accounting in Hreach.
  destruct Hreach as (_ & _ & _ & _ & H5).
  destruct (is_early_return_toast e) eqn:E; [|reflexivity].
  unfold count in H5.
  assert (Hin : In e (filter is_early_return_toast (log w))).
  { apply filter_In. auto. }
  destruct (filter is_early_return_toast (log w)); [contradiction|discriminate].
Qed.

(** What a submission leaves alone in the state. *)
Lemma handleSubmit_begin_fields (projectId : string) (st st' : State)
      (evs : list event) (req : option NewAllocation) :
  handleSubmit_begin projectId st = (st', evs, req) ->
  resources st' = resources st
  /\ loading st' = loading st
  /\ selectedResource st' = selectedResource st
  /\ availableQuantity st' = availableQuantity st
  /\ resourceId st' = resourceId st
  /\ quantity st' = quantity st.
Proof.
  unfold handleSubmit_begin. simpl.
  destruct (FormSchema (availableQuantity st) (resourceId st) (quantity st))
    as [issues | data].
  - intro H. injection H as <- _ _. simpl. auto 10.
  - destruct (onSubmit_request projectId _ data);
      intro H; injection H as <- _ _; simpl; auto 10.
Qed.

Lemma selection_effect_fields (st : State) :
  resources (selection_effect st) = resources st
  /\ loading (selection_effect st) = loading st
  /\ resourceId (selection_effect st) = resourceId st.
Proof.
  unfold selection_effect.
  destruct (String.eqb (resourceId st) ""); [auto|].
  destruct (find_resource (resourceId st) (resources st)); simpl; auto.
Qed.

(** X11. While an insert is awaited no other input touches it: pressing
    the button again does nothing at all, choosing another resource or
    typing another quantity changes neither the awaited row nor the store,
    and the row that is written when the store accepts is the awaited
    one. *)
Theorem awaited_row_unaffected
        (projectId : string) (w : World) (row : NewAllocation) (i : input) :
  reachable projectId w -> inflight w = Some row ->
  (forall r, i <> InsertAnswered r) ->
  step projectId w Submit = w
  /\ inflight (step projectId w i) = Some row
  /\ store (step projectId w i) = store w
  /\ store (step projectId (step projectId w i) (InsertAnswered Ok))
     = (store w ++ [row])%list.
Proof.
  intros Hreach Hfl Hi.
  apply reachable_invariant in Hreach. destruct Hreach as (_ & _ & _ & Hp).
  destruct (Hp row Hfl) as (Hsub & _ & _).
  assert (Hdis : submit_disabled (ui w) = true).
  { unfold submit_disabled. rewrite Hsub. now rewrite orb_true_r. }
  assert (Hsubmit : step projectId w Submit = w).
  { unfold step. now rewrite Hdis. }
  assert (Hkeep : inflight (step projectId w i) = Some row
                  /\ store (step projectId w i) = store w).
  { destruct i as [rd ad| |id|v| |r].
    - unfold step. destruct (loading (ui w)); auto.
    - unfold step. destruct (loading (ui w)); auto.
    - unfold step.
      destruct (negb (loading (ui w)) && offered id (ui w)
                && negb (String.eqb id (resourceId (ui w)))); auto.
    - unfold step. destruct (is_none (selectedResource (ui w))); auto.
    - rewrite Hsubmit. auto.
    - now elim (Hi r). }
  destruct Hkeep as [Hk1 Hk2].
  split; [exact Hsubmit|]. split; [exact Hk1|]. split; [exact Hk2|].
  unfold step at 1. rewrite Hk1. simpl. now rewrite Hk2.
Qed.

(** X12. With nothing selected in a reachable world, a submission is
    stopped by the schema whatever the quantity field holds: issues are
    recorded, no event is produced and [onSubmit] is not entered. *)
Theorem schema_rejects_without_selection
        (projectId : string) (w : World) (r : response) :
  reachable projectId w -> selectedResource (ui w) = None ->
  availableQuantity (ui w) = Num 0
  /\ (exists i issues, errors (fst (handleSubmit projectId (ui w) r)) = i :: issues)
  /\ snd (handleSubmit projectId (ui w) r) = []
  /\ step projectId w Submit = w.
Proof.
  intros Hreach Hsel.
  apply reachable_invariant in Hreach. destruct Hreach as (_ & Hnone & _).
  pose proof (Hnone Hsel) as Hb.
  assert (Hrej : exists i issues,
             FormSchema (availableQuantity (ui w)) (resourceId (ui w)) (quantity (ui w))
             = inl (i :: issues)).
  { apply FormSchema_rejects.
    destruct (to_number (quantity (ui w))) as [q|]; [|now left].
    right. exists q. split; [reflexivity|]. rewrite Hb.
    destruct (Qlt_le_dec 0 q) as [Hpos | Hneg]; [right|now left].
    unfold gt. now apply lt_Num. }
  destruct Hrej as (i & issues & E).
  split; [exact Hb|].
  unfold handleSubmit, handleSubmit_begin. simpl. rewrite E. simpl.
  split; [now exists i, issues|]. split; [reflexivity|].
  unfold step, submit_disabled. rewrite Hsel. simpl. now rewrite orb_true_r.
Qed.




Lemma offered_In (id : string) (st : State) :
  offered id st = true -> exists r, In r (resources st) /\ Resource.id r = id.
Proof.
  unfold offered. intro H. apply existsb_exists in H.
  destruct H as (r & Hin & Hr). apply String.eqb_eq in Hr. eauto.
Qed.

Lemma selection_consistent_start : selection_consistent start.
Proof. split; [reflexivity|discriminate]. Qed.

Lemma selection_consistent_step (projectId : string) (w : World) (i : input) :
  selection_consistent w -> selection_consistent (step projectId w i).
Proof.
  intro Hw. destruct w as [st db fl evs].
  pose proof Hw as [Hload Hsel]. cbn [ui] in Hload, Hsel.
  destruct i as [rd ad| |id|v| |r]; unfold step; cbn [ui store inflight log].
  - destruct (loading st) eqn:Hl; [|exact Hw].
    pose proof (Hload eq_refl) as Hnone.
    unfold selection_consistent, selection_effect. cbn [ui].
    cbn [resourceId set_loading set_resources resources].
    destruct (String.eqb (resourceId st) "").
    + simpl. split; [discriminate|]. intros r' Hr'. congruence.
    + destruct (find_resource (resourceId st) (availableResources rd ad)) as [r'|] eqn:E.
      * simpl. split; [discriminate|]. intros r0 Hr0. injection Hr0 as <-.
        apply find_resource_some in E. destruct E as [Hin Hid]. auto.
      * simpl. split; [discriminate|]. intros r' Hr'. congruence.
  - destruct (loading st) eqn:Hl; [|exact Hw].
    unfold selection_consistent. simpl. split; [discriminate|].
    intros r' Hr'. rewrite (Hload eq_refl) in Hr'. discriminate.
  - destruct (negb (loading st) && offered id st && negb (String.eqb id (resourceId st)))
      eqn:Hc; [|exact Hw].
    apply andb_true_iff in Hc. destruct Hc as [Hc _].
    apply andb_true_iff in Hc. destruct Hc as [Hl Hoff].
    apply negb_true_iff in Hl.
    unfold selection_consistent, selection_effect. cbn [ui].
    cbn [resourceId set_resourceId resources].
    destruct (String.eqb id "") eqn:Eid.
    + simpl. split; [congruence|]. intros r' Hr'.
      destruct (Hsel r' Hr') as [Hin _]. split; [exact Hin|].
      intro Hne. exfalso. apply String.eqb_eq in Eid. subst id.
      destruct (offered_In "" st Hoff) as (r0 & Hin0 & Hid0).
      unfold nonempty_ids in Hne. rewrite Forall_forall in Hne.
      exact (Hne r0 Hin0 Hid0).
    + destruct (offered_find id st Hoff) as (r0 & E). rewrite E. simpl.
      split; [congruence|]. intros r' Hr'. injection Hr' as <-.
      apply find_resource_some in E. destruct E as [Hin Hid]. auto.
  - destruct (is_none (selectedResource st)); exact Hw.
  - destruct (submit_disabled st); [exact Hw|].
    destruct (handleSubmit_begin projectId st) as [[st' evs'] req] eqn:E.
    apply handleSubmit_begin_fields in E.
    destruct E as (E1 & E2 & E3 & _ & E5 & _).
    unfold selection_consistent. cbn [ui]. rewrite E1, E2, E3, E5.
    exact Hw.
  - destruct fl as [row|]; [|exact Hw].
    exact Hw.
Qed.

Lemma reachable_selection_consistent (projectId : string) (w : World) :
  reachable projectId w -> selection_consistent w.
Proof.
  apply reachable_ind.
  - apply selection_consistent_start.
  - intros w' i _ H. now apply selection_consistent_step.
Qed.

(** X14. The selected resource is always one of the offered ones.  When
    no offered resource has the empty identifier, it is the one the form
    names, and the row a submission inserts references it. *)
Theorem insert_references_selection (projectId : string) (w : World) :
  reachable projectId w ->
  (forall r, selectedResource (ui w) = Some r -> In r (resources (ui w)))
  /\ (nonempty_ids (resources (ui w)) ->
      (forall r, selectedResource (ui w) = Some r ->
                 Resource.id r = resourceId (ui w))
      /\ (forall row, submit_disabled (ui w) = false ->
                      inflight (step projectId w Submit) = Some row ->
                      exists r, selectedResource (ui w) = Some r
                                /\ new_resource_id row = Resource.id r)).
Proof.
  intro Hreach.
  pose proof (reachable_selection_consistent projectId w Hreach) as [_ Hsel].
  split; [intros r Hr; now apply Hsel|].
  intro Hne. split; [intros r Hr; now apply Hsel|].
  intros row Hen Hrow.
  destruct (submitted_quantity_bounded projectId w row Hreach Hen Hrow)
    as (r & a & q & Hr & _ & _ & _ & -> & _).
  exists r. split; [exact Hr|]. simpl. symmetry. now apply Hsel.
Qed.

(** Once loading is over the list of offered resources stays as it is. *)
Lemma step_keeps_resources (projectId : string) (w : World) (i : input) :
  loading (ui w) = false ->
  resources (ui (step projectId w i)) = resources (ui w)
  /\ loading (ui (step projectId w i)) = false.
Proof.
  intro Hl. destruct i as [rd ad| |id|v| |r]; unfold step.
  - rewrite Hl. auto.
  - rewrite Hl. auto.
  - destruct (negb (loading (ui w)) && offered id (ui w)
              && negb (String.eqb id (resourceId (ui w)))); [|auto].
    cbn [ui].
    destruct (selection_effect_fields (set_resourceId id (ui w))) as (E1 & E2 & _).
    rewrite E1, E2. auto.
  - destruct (is_none (selectedResource (ui w))); auto.
  - destruct (submit_disabled (ui w)); [auto|].
    destruct (handleSubmit_begin projectId (ui w)) as [[st' evs'] req] eqn:E.
    apply handleSubmit_begin_fields in E. destruct E as (E1 & E2 & _).
    cbn [ui]. rewrite E1, E2. auto.
  - destruct (inflight w); [|auto]. simpl. auto.
Qed.

Lemma run_keeps_resources (projectId : string) (inputs : list input) :
  forall w, loading (ui w) = false ->
            resources (ui (fold_left (step projectId) inputs w)) = resources (ui w).
Proof.
  induction inputs as [|i inputs IH]; intros w Hl; [reflexivity|].
  simpl. destruct (step_keeps_resources projectId w i Hl) as [E1 E2].
  rewrite (IH _ E2). exact E1.
Qed.

Lemma nonempty_ids_available (rd : list Resource.t) (ad : list Allocation.t) :
  nonempty_ids rd -> nonempty_ids (availableResources rd ad).
Proof.
  unfold nonempty_ids. rewrite !Forall_forall. intros H r Hr.
  unfold availableResources, resourcesWithAvailability in Hr.
  apply filter_In in Hr. destruct Hr as [Hr _].
  apply in_map_iff in Hr. destruct Hr as (row & <- & Hrow).
  exact (H row Hrow).
Qed.

(** X16. Nothing is refreshed after a successful submission: selection,
    bound and quantity stay as they were and the button is enabled again,
    so pressing it once more passes the same checks against the same bound
    and the same row is written a second time. *)
Theorem accepted_submission_keeps_bound
        (projectId : string) (w : World) (row : NewAllocation) :
  reachable projectId w ->
  submit_disabled (ui w) = false ->
  inflight (step projectId w Submit) = Some row ->
  let accepted := step projectId (step projectId w Submit) (InsertAnswered Ok) in
  selectedResource (ui accepted) = selectedResource (ui w)
  /\ availableQuantity (ui accepted) = availableQuantity (ui w)
  /\ quantity (ui accepted) = quantity (ui w)
  /\ resources (ui accepted) = resources (ui w)
  /\ submit_disabled (ui accepted) = false
  /\ inflight (step projectId accepted Submit) = Some row
  /\ store (step projectId (step projectId accepted Submit) (InsertAnswered Ok))
     = (store w ++ [row; row])%list.
Proof.
  intros Hreach Hen Hrow accepted.
  pose proof Hen as Hen'. apply submit_enabled in Hen'.
  destruct Hen' as (Hl & Hsel & Hsub).
  destruct (submitted_quantity_bounded projectId w row Hreach Hen Hrow)
    as (r & a & q & Hr & Ha & Hb & Hn & Erow & Hq & Hqa).
  assert (Hgt : gt (Num q) (availableQuantity (ui w)) = false).
  { rewrite Hb. now apply gt_Num_false. }
  assert (Hw1 : step projectId w Submit
                = mkWorld (set_errors [] (set_isSubmitting true (ui w))) (store w)
                          (Some row) (log w ++ [Insert row])).
  { unfold step. rewrite Hen.
    rewrite (handleSubmit_begin_valid projectId (ui w) q Hsel Hn Hq Hgt).
    now rewrite Erow. }
  assert (Hacc : accepted
                 = mkWorld (set_isSubmitting false
                              (set_errors [] (set_isSubmitting true (ui w))))
                           (store w ++ [row])
                           None
                           ((log w ++ [Insert row])
                              ++ [Toast toast_resource_added; OnResourceAdded])).
  { unfold accepted. rewrite Hw1. reflexivity. }
  assert (Hen2 : submit_disabled (ui accepted) = false).
  { rewrite Hacc. apply submit_enabled. simpl. auto. }
  assert (Hw3 : step projectId accepted Submit
                = mkWorld (set_errors [] (set_isSubmitting true (ui accepted)))
                          (store accepted) (Some row)
                          (log accepted ++ [Insert row])).
  { unfold step. rewrite Hen2.
    rewrite (handleSubmit_begin_valid projectId (ui accepted) q).
    - rewrite Erow. rewrite Hacc. reflexivity.
    - rewrite Hacc. exact Hsel.
    - rewrite Hacc. exact Hn.
    - exact Hq.
    - rewrite Hacc. exact Hgt. }
  rewrite Hw3. rewrite Hacc. simpl.
  repeat split; try assumption.
  - apply submit_enabled. simpl. auto.
  - now rewrite <- app_assoc.
Qed.

(** ** The further properties at work *)

(** The consumed allocation of cement, between two allocations of crane. *)
Lemma unrelated_allocation_ignored_witness :
  (Allocation.consumed cement_consumed = true
   \/ Allocation.resource_id cement_consumed <> Resource.id cement)
  /\ withAvailability ([crane_60] ++ cement_consumed :: [crane_25]) cement
     = withAvailability ([crane_60] ++ [crane_25]) cement.
Proof.
  assert (H : Allocation.consumed cement_consumed = true
              \/ Allocation.resource_id cement_consumed <> Resource.id cement)
    by (left; reflexivity).
  split; [exact H|].
  exact (unrelated_allocation_ignored cement cement_consumed [crane_60] [crane_25] H).
Defined.


(** The cement, referenced only by a consumed allocation. *)
Lemma unallocated_resource_witness :
  allocations cement sample_allocations = []
  /\ in_stock (withAvailability sample_allocations cement) = true
  /\ Resource.status (withAvailability sample_allocations cement) = "Available".
Proof.
  split; [reflexivity|].
  destruct (unallocated_resource cement sample_allocations 50 eq_refl eq_refl)
    as (_ & _ & Hpos & _).
  apply Hpos. reflexivity.
Defined.


Lemma reachable_cement_requested : reachable "p1" cement_requested.
Proof. exists cement_inputs. reflexivity. Qed.

Lemma reachable_cement_chosen : reachable "p1" cement_chosen.
Proof.
  exists [FetchResolved sample_resources sample_allocations;
          SelectResource "r-cement"; TypeQuantity (Num 50)].
  reflexivity.
Qed.

Lemma reachable_loaded : reachable "p1" loaded.
Proof. exists [FetchResolved sample_resources sample_allocations]. reflexivity. Qed.

(** The row awaited for the cement. *)
Lemma written_rows_well_formed_witness :
  reachable "p1" cement_requested
  /\ new_project_id cement_row = "p1"
  /\ new_consumed cement_row = false
  /\ exists q, new_quantity cement_row = Num q /\ 0 < q.
Proof.
  split; [exact reachable_cement_requested|].
  destruct (written_rows_well_formed "p1" cement_requested reachable_cement_requested)
    as [_ H].
  exact (H cement_row eq_refl).
Defined.

Lemma log_accounts_for_store_witness :
  reachable "p1" cement_requested
  /\ count is_onResourceAdded (log cement_requested)
     = List.length (store cement_requested)
  /\ count is_insert (log cement_requested)
     = (List.length (store cement_requested)
        + count is_toast_error (log cement_requested) + pending cement_requested)%nat
  /\ (pending cement_requested <= 1)%nat.
Proof.
  split; [exact reachable_cement_requested|].
  exact (log_accounts_for_store "p1" cement_requested reachable_cement_requested).
Defined.

Lemma early_return_toasts_never_shown_witness :
  reachable "p1" cement_requested
  /\ In (Insert cement_row) (log cement_requested)
  /\ is_early_return_toast (Insert cement_row) = false.
Proof.
  split; [exact reachable_cement_requested|].
  assert (Hin : In (Insert cement_row) (log cement_requested)) by (left; reflexivity).
  split; [exact Hin|].
  exact (early_return_toasts_never_shown "p1" cement_requested
           reachable_cement_requested (Insert cement_row) Hin).
Defined.

(** Choosing the crane while the cement is awaited. *)
Lemma awaited_row_unaffected_witness :
  reachable "p1" cement_requested
  /\ inflight cement_requested = Some cement_row
  /\ step "p1" cement_requested Submit = cement_requested
  /\ inflight (step "p1" cement_requested (SelectResource "r-crane")) = Some cement_row
  /\ store (step "p1" cement_requested (SelectResource "r-crane"))
     = store cement_requested
  /\ store (step "p1" (step "p1" cement_requested (SelectResource "r-crane"))
                 (InsertAnswered Ok))
     = (store cement_requested ++ [cement_row])%list.
Proof.
  split; [exact reachable_cement_requested|]. split; [reflexivity|].
  apply (awaited_row_unaffected "p1" cement_requested cement_row
           (SelectResource "r-crane") reachable_cement_requested eq_refl).
  intros r H. discriminate H.
Defined.

Lemma schema_rejects_without_selection_witness :
  reachable "p1" loaded
  /\ selectedResource (ui loaded) = None
  /\ snd (handleSubmit "p1" (ui loaded) Ok) = [].
Proof.
  split; [exact reachable_loaded|]. split; [reflexivity|].
  destruct (schema_rejects_without_selection "p1" loaded Ok reachable_loaded eq_refl)
    as (_ & _ & H & _).
  exact H.
Defined.

Lemma nonempty_sample_ids : nonempty_ids sample_resources.
Proof. repeat constructor; discriminate. Qed.

Lemma insert_references_selection_witness :
  reachable "p1" cement_chosen
  /\ nonempty_ids (resources (ui cement_chosen))
  /\ exists r, selectedResource (ui cement_chosen) = Some r
               /\ new_resource_id cement_row = Resource.id r.
Proof.
  assert (Hne : nonempty_ids (resources (ui cement_chosen))).
  { apply (nonempty_ids_available sample_resources sample_allocations).
    exact nonempty_sample_ids. }
  split; [exact reachable_cement_chosen|]. split; [exact Hne|].
  destruct (insert_references_selection "p1" cement_chosen reachable_cement_chosen)
    as [_ H].
  destruct (H Hne) as [_ Hrow].
  exact (Hrow cement_row eq_refl eq_refl).
Defined.

(** The 50 bags asked for twice: 100 written against 50. *)
Lemma accepted_submission_keeps_bound_witness :
  reachable "p1" cement_chosen
  /\ availableQuantity (ui cement_chosen) = Num 50
  /\ store (step "p1"
              (step "p1" (step "p1" (step "p1" cement_chosen Submit) (InsertAnswered Ok))
                    Submit)
              (InsertAnswered Ok))
     = [cement_row; cement_row].
Proof.
  split; [exact reachable_cement_chosen|]. split; [reflexivity|].
  destruct (accepted_submission_keeps_bound "p1" cement_chosen cement_row
              reachable_cement_chosen eq_refl eq_refl)
    as (_ & _ & _ & _ & _ & _ & H).
  exact H.
Defined.

(** * The availability computation in double precision *)

(** ** Whole numbers are added and subtracted exactly *)

Section WholeNumbers.

Local Open Scope Z_scope.

Import Binary64.

Lemma shl_S (c : positive) (n : nat) : shl c (S n) = xO (shl c n).
Proof. reflexivity. Qed.

Lemma shl_add (c : positive) (j d : nat) : shl (shl c j) d = shl c (j + d).
Proof.
  unfold shl. rewrite Nat.add_comm. symmetry. apply Nat.iter_add.
Qed.

Lemma digits_shl (c : positive) (n : nat) :
  Zpos (digits2_pos (shl c n)) = Zpos (digits2_pos c) + Z.of_nat n.
Proof.
  induction n as [|n IH].
  - simpl. lia.
  - rewrite shl_S. cbn [digits2_pos]. rewrite Pos2Z.inj_succ, IH. lia.
Qed.

Lemma iter_xO_shl (c : positive) (j : nat) (d : positive) :
  Pos.iter xO (shl c j) d = shl c (j + Pos.to_nat d).
Proof.
  rewrite Pos2Nat.inj_iter. apply shl_add.
Qed.

Lemma Zpos_shl (c : positive) (n : nat) :
  Zpos (shl c n) = Zpos c * 2 ^ Z.of_nat n.
Proof.
  induction n as [|n IH].
  - simpl. lia.
  - rewrite shl_S, Pos2Z.inj_xO, IH, Nat2Z.inj_succ, Z.pow_succ_r by lia. lia.
Qed.

Lemma iter_shr_exact (c : positive) (p : positive) :
  forall k : nat,
    iter_pos shr_1 p (Build_shr_record (Zpos (shl c (k + Pos.to_nat p))) false false)
    = Build_shr_record (Zpos (shl c k)) false false.
Proof.
  induction p as [p IH|p IH|]; intro k.
  - cbn [iter_pos].
    replace (k + Pos.to_nat p~1)%nat with (S ((k + Pos.to_nat p) + Pos.to_nat p)) by lia.
    rewrite shl_S. cbn [shr_1 orb]. rewrite IH. apply IH.
  - cbn [iter_pos].
    replace (k + Pos.to_nat p~0)%nat with ((k + Pos.to_nat p) + Pos.to_nat p)%nat by lia.
    rewrite IH. apply IH.
  - cbn [iter_pos]. replace (k + Pos.to_nat 1)%nat with (S k) by lia.
    rewrite shl_S. reflexivity.
Qed.

Lemma fexp_small (d : Z) : 1 <= d -> fexp prec emax d = d - 53.
Proof. intro H. unfold fexp, emin, prec, emax. lia. Qed.

Lemma digits_pos (c : positive) : 1 <= Zpos (digits2_pos c).
Proof. lia. Qed.

Lemma round_aux_exact (s : bool) (m : positive) (e : Z) :
  Zpos (digits2_pos m) = 53 -> e <= 971 -> -1074 <= e ->
  binary_round_aux prec emax s (Zpos m) e loc_Exact = S754_finite s m e.
Proof.
  intros Hd He He'.
  unfold binary_round_aux, shr_fexp. cbn [Zdigits2 shr_record_of_loc].
  rewrite Hd.
  assert (E : fexp prec emax (53 + e) - e = 0) by (unfold fexp, emin, prec, emax; lia).
  rewrite E. cbn [shr shr_m loc_of_shr_record round_nearest_even Zdigits2 shr_record_of_loc].
  rewrite Hd, E. cbn [shr shr_m].
  assert (L : (e <=? emax - prec) = true) by (apply Z.leb_le; unfold emax, prec; lia).
  now rewrite L.
Qed.

Lemma round_int (s : bool) (c : positive) (j : nat) :
  Zpos (digits2_pos c) <= 53 ->
  binary_round prec emax s (shl c j) (- Z.of_nat j) = canonical s c.
Proof.
  intro Hc. pose proof (digits_pos c) as Hc1.
  unfold binary_round, canonical.
  rewrite digits_shl.
  replace (Zpos (digits2_pos c) + Z.of_nat j + - Z.of_nat j) with (Zpos (digits2_pos c)) by lia.
  rewrite (fexp_small _ Hc1).
  unfold shl_align.
  destruct (Zpos (digits2_pos c) - 53 - - Z.of_nat j) as [|n|d] eqn:E.
  - (* no shift either way *)
    assert (Hj : j = Z.to_nat (53 - Zpos (digits2_pos c))) by lia.
    rewrite <- Hj.
    replace (Zpos (digits2_pos c) - 53) with (- Z.of_nat j) by lia.
    apply round_aux_exact; [rewrite digits_shl|..]; lia.
  - (* the mantissa is too long: shift right, exactly *)
    unfold binary_round_aux, shr_fexp. cbn [Zdigits2 shr_record_of_loc].
    rewrite digits_shl.
    replace (Zpos (digits2_pos c) + Z.of_nat j + - Z.of_nat j) with (Zpos (digits2_pos c)) by lia.
    rewrite (fexp_small _ Hc1), E. cbn [shr].
    assert (Hit : iter_pos shr_1 n (Build_shr_record (Zpos (shl c j)) false false)
                  = Build_shr_record
                      (Zpos (shl c (Z.to_nat (53 - Zpos (digits2_pos c))))) false false).
    { replace j with (Z.to_nat (53 - Zpos (digits2_pos c)) + Pos.to_nat n)%nat by lia.
      apply iter_shr_exact. }
    rewrite Hit.
    cbn [shr_m loc_of_shr_record round_nearest_even Zdigits2 shr_record_of_loc].
    rewrite digits_shl.
    assert (E2 : fexp prec emax
                   (Zpos (digits2_pos c) + Z.of_nat (Z.to_nat (53 - Zpos (digits2_pos c)))
                    + (- Z.of_nat j + Zpos n))
                 - (- Z.of_nat j + Zpos n) = 0)
      by (unfold fexp, emin, prec, emax; lia).
    rewrite E2. cbn [shr shr_m].
    assert (L : (- Z.of_nat j + Zpos n <=? emax - prec) = true)
      by (apply Z.leb_le; unfold emax, prec; lia).
    rewrite L. f_equal. lia.
  - (* the mantissa is too short: shift left *)
    rewrite iter_xO_shl.
    replace (j + Pos.to_nat d)%nat with (Z.to_nat (53 - Zpos (digits2_pos c))) by lia.
    apply round_aux_exact; [rewrite digits_shl|..]; lia.
Qed.

Lemma pow_digits_le (c : positive) : 2 ^ (Zpos (digits2_pos c) - 1) <= Zpos c.
Proof.
  induction c as [c IH|c IH|]; cbn [digits2_pos].
  - rewrite Pos2Z.inj_succ.
    replace (Z.succ (Zpos (digits2_pos c)) - 1) with (Z.succ (Zpos (digits2_pos c) - 1)) by lia.
    rewrite Z.pow_succ_r by lia. lia.
  - rewrite Pos2Z.inj_succ.
    replace (Z.succ (Zpos (digits2_pos c)) - 1) with (Z.succ (Zpos (digits2_pos c) - 1)) by lia.
    rewrite Z.pow_succ_r by lia. lia.
  - simpl. lia.
Qed.

Lemma digits_bound (c : positive) : Zpos c < 2 ^ 53 -> Zpos (digits2_pos c) <= 53.
Proof.
  intro H. destruct (Z_le_gt_dec (Zpos (digits2_pos c)) 53) as [Hle | Hgt]; [exact Hle|].
  exfalso. pose proof (pow_digits_le c) as Hp.
  assert (Hm : 2 ^ 53 <= 2 ^ (Zpos (digits2_pos c) - 1))
    by (apply Z.pow_le_mono_r; lia).
  lia.
Qed.

Lemma of_Z_pos (c : positive) : Zpos c < 2 ^ 53 -> of_Z (Zpos c) = canonical false c.
Proof.
  intro H. unfold of_Z, binary_normalize.
  exact (round_int false c 0 (digits_bound c H)).
Qed.

Lemma of_Z_neg (c : positive) : Zpos c < 2 ^ 53 -> of_Z (Zneg c) = canonical true c.
Proof.
  intro H. unfold of_Z, binary_normalize.
  exact (round_int true c 0 (digits_bound c H)).
Qed.

(** A whole number times a power of two, normalised. *)
Lemma normalize_int (z : Z) (K : nat) :
  Z.abs z < 2 ^ 53 ->
  binary_normalize prec emax (z * 2 ^ Z.of_nat K) (- Z.of_nat K) false = of_Z z.
Proof.
  intro H. destruct z as [|c|c].
  - reflexivity.
  - rewrite <- Zpos_shl. unfold binary_normalize at 1.
    rewrite round_int by (apply digits_bound; lia).
    symmetry. apply of_Z_pos. lia.
  - replace (Zneg c * 2 ^ Z.of_nat K) with (Zneg (shl c K))
      by (rewrite <- !Pos2Z.opp_pos, Zpos_shl; lia).
    unfold binary_normalize at 1.
    rewrite round_int by (apply digits_bound; lia).
    symmetry. apply of_Z_neg. lia.
Qed.

Lemma shl_align_fst (c : positive) (k K : nat) :
  (k <= K)%nat ->
  fst (shl_align (shl c k) (- Z.of_nat k) (- Z.of_nat K)) = shl c K.
Proof.
  intro H. unfold shl_align.
  destruct (- Z.of_nat K - - Z.of_nat k) as [|n|d] eqn:E; cbn [fst].
  - f_equal. lia.
  - lia.
  - rewrite iter_xO_shl. f_equal. lia.
Qed.

Lemma cond_Zopp_shl (s : bool) (c : positive) (K : nat) :
  cond_Zopp s (Zpos (shl c K)) = cond_Zopp s (Zpos c) * 2 ^ Z.of_nat K.
Proof. destruct s; cbn [cond_Zopp]; rewrite Zpos_shl; lia. Qed.

Lemma of_Z_signed (s : bool) (c : positive) :
  Zpos c < 2 ^ 53 -> of_Z (signed s c) = canonical s c.
Proof. destruct s; [apply of_Z_neg|apply of_Z_pos]. Qed.

Lemma canonical_exponent (c : positive) :
  Zpos (digits2_pos c) <= 53 ->
  Zpos (digits2_pos c) - 53 = - Z.of_nat (Z.to_nat (53 - Zpos (digits2_pos c))).
Proof. lia. Qed.

Lemma add_canonical (sa sb : bool) (a b : positive) :
  Zpos a < 2 ^ 53 -> Zpos b < 2 ^ 53 -> Z.abs (signed sa a + signed sb b) < 2 ^ 53 ->
  SFadd prec emax (canonical sa a) (canonical sb b) = of_Z (signed sa a + signed sb b).
Proof.
  intros Ha Hb Hab.
  pose proof (digits_bound a Ha) as Hda. pose proof (digits_bound b Hb) as Hdb.
  unfold canonical, SFadd.
  set (ka := Z.to_nat (53 - Zpos (digits2_pos a))).
  set (kb := Z.to_nat (53 - Zpos (digits2_pos b))).
  rewrite (canonical_exponent a Hda), (canonical_exponent b Hdb). fold ka kb.
  set (K := Nat.max ka kb).
  replace (Z.min (- Z.of_nat ka) (- Z.of_nat kb)) with (- Z.of_nat K) by lia.
  rewrite (shl_align_fst a ka K) by lia.
  rewrite (shl_align_fst b kb K) by lia.
  rewrite !cond_Zopp_shl, <- Z.mul_add_distr_r.
  now apply normalize_int.
Qed.

Lemma sub_canonical (sa sb : bool) (a b : positive) :
  Zpos a < 2 ^ 53 -> Zpos b < 2 ^ 53 -> Z.abs (signed sa a - signed sb b) < 2 ^ 53 ->
  SFsub prec emax (canonical sa a) (canonical sb b) = of_Z (signed sa a - signed sb b).
Proof.
  intros Ha Hb Hab.
  pose proof (digits_bound a Ha) as Hda. pose proof (digits_bound b Hb) as Hdb.
  unfold canonical, SFsub.
  set (ka := Z.to_nat (53 - Zpos (digits2_pos a))).
  set (kb := Z.to_nat (53 - Zpos (digits2_pos b))).
  rewrite (canonical_exponent a Hda), (canonical_exponent b Hdb). fold ka kb.
  set (K := Nat.max ka kb).
  replace (Z.min (- Z.of_nat ka) (- Z.of_nat kb)) with (- Z.of_nat K) by lia.
  rewrite (shl_align_fst a ka K) by lia.
  rewrite (shl_align_fst b kb K) by lia.
  rewrite !cond_Zopp_shl, <- Z.mul_sub_distr_r.
  now apply normalize_int.
Qed.

Lemma of_Z_cases (z : Z) :
  Z.abs z < 2 ^ 53 ->
  (z = 0 /\ of_Z z = S754_zero false)
  \/ exists s c, z = signed s c /\ Zpos c < 2 ^ 53 /\ of_Z z = canonical s c.
Proof.
  intro H. destruct z as [|c|c].
  - left. split; reflexivity.
  - right. exists false, c. split; [reflexivity|]. split; [lia|]. apply of_Z_pos. lia.
  - right. exists true, c. split; [reflexivity|]. split; [lia|]. apply of_Z_neg. lia.
Qed.

Lemma add_of_Z (a b : Z) :
  Z.abs a < 2 ^ 53 -> Z.abs b < 2 ^ 53 -> Z.abs (a + b) < 2 ^ 53 ->
  SFadd prec emax (of_Z a) (of_Z b) = of_Z (a + b).
Proof.
  intros Ha Hb Hab.
  destruct (of_Z_cases a Ha) as [[-> Ea] | (sa & ca & -> & Hca & Ea)];
    destruct (of_Z_cases b Hb) as [[-> Eb] | (sb & cb & -> & Hcb & Eb)];
    rewrite ?Ea, ?Eb.
  - reflexivity.
  - rewrite Z.add_0_l. rewrite of_Z_signed by assumption. reflexivity.
  - rewrite Z.add_0_r. rewrite of_Z_signed by assumption. reflexivity.
  - now apply add_canonical.
Qed.

Lemma sub_of_Z (a b : Z) :
  Z.abs a < 2 ^ 53 -> Z.abs b < 2 ^ 53 -> Z.abs (a - b) < 2 ^ 53 ->
  SFsub prec emax (of_Z a) (of_Z b) = of_Z (a - b).
Proof.
  intros Ha Hb Hab.
  destruct (of_Z_cases a Ha) as [[-> Ea] | (sa & ca & -> & Hca & Ea)];
    destruct (of_Z_cases b Hb) as [[-> Eb] | (sb & cb & -> & Hcb & Eb)];
    rewrite ?Ea, ?Eb.
  - reflexivity.
  - rewrite Z.sub_0_l.
    replace (- signed sb cb) with (signed (negb sb) cb) by (destruct sb; reflexivity).
    rewrite of_Z_signed by assumption. reflexivity.
  - rewrite Z.sub_0_r. rewrite of_Z_signed by assumption. reflexivity.
  - now apply sub_canonical.
Qed.

(** *** One fifth of a whole number *)

Lemma point_two_bits : point_two = S754_finite false 7205759403792794 (-55).
Proof. vm_compute. reflexivity. Qed.

Lemma digits_upper (c : positive) : Zpos c < 2 ^ Zpos (digits2_pos c).
Proof.
  induction c as [c IH|c IH|]; cbn [digits2_pos].
  - rewrite Pos2Z.inj_succ, Z.pow_succ_r by lia. lia.
  - rewrite Pos2Z.inj_succ, Z.pow_succ_r by lia. lia.
  - simpl. lia.
Qed.

Lemma digits_unique (c : positive) (d : Z) :
  2 ^ (d - 1) <= Zpos c < 2 ^ d -> Zpos (digits2_pos c) = d.
Proof.
  intros [Hl Hu]. pose proof (pow_digits_le c) as Hl'. pose proof (digits_upper c) as Hu'.
  assert (Hd : 0 < d).
  { destruct (Z_lt_le_dec 0 d) as [H|H]; [exact H|].
    exfalso. destruct (Z.eq_dec d 0) as [->|Hn].
    - simpl in Hu. lia.
    - rewrite Z.pow_neg_r in Hu by lia. lia. }
  destruct (Z.lt_trichotomy (Zpos (digits2_pos c)) d) as [H | [H | H]]; [|exact H|].
  - exfalso.
    assert (2 ^ Zpos (digits2_pos c) <= 2 ^ (d - 1)) by (apply Z.pow_le_mono_r; lia).
    lia.
  - exfalso.
    assert (2 ^ d <= 2 ^ (Zpos (digits2_pos c) - 1)) by (apply Z.pow_le_mono_r; lia).
    lia.
Qed.

Lemma iter_pos_nat {A : Type} (f : A -> A) (n : positive) :
  forall x, iter_pos f n x = Nat.iter (Pos.to_nat n) f x.
Proof.
  assert (Hswap : forall k x, Nat.iter k f (f x) = f (Nat.iter k f x)).
  { induction k as [|k IHk]; intro x; simpl; [reflexivity|now rewrite IHk]. }
  induction n as [n IH|n IH|]; intro x; cbn [iter_pos].
  - rewrite !IH, Pos2Nat.inj_xI.
    replace (S (2 * Pos.to_nat n)) with (Pos.to_nat n + S (Pos.to_nat n))%nat by lia.
    rewrite Nat.iter_add. simpl. now rewrite Hswap.
  - rewrite !IH, Pos2Nat.inj_xO.
    replace (2 * Pos.to_nat n)%nat with (Pos.to_nat n + Pos.to_nat n)%nat by lia.
    now rewrite Nat.iter_add.
  - reflexivity.
Qed.

Lemma shr_1_spec (x : shr_record) :
  0 <= shr_m x ->
  shr_m (shr_1 x) = shr_m x / 2 /\ shr_r (shr_1 x) = Z.odd (shr_m x).
Proof.
  destruct x as [m r s]. cbn [shr_m]. intro H.
  destruct m as [|p|p]; [split; reflexivity| |lia].
  destruct p as [p|p|]; cbn [shr_1 shr_m shr_r].
  - split; [|reflexivity]. rewrite Pos2Z.inj_xI.
    apply (Z.div_unique (2 * Zpos p + 1) 2 (Zpos p) 1); lia.
  - split; [|reflexivity]. rewrite Pos2Z.inj_xO.
    apply (Z.div_unique (2 * Zpos p) 2 (Zpos p) 0); lia.
  - split; reflexivity.
Qed.

Lemma iter_shr_spec (m : Z) (k : nat) :
  0 <= m ->
  let x := Nat.iter (S k) shr_1 (Build_shr_record m false false) in
  shr_m x = m / 2 ^ Z.of_nat (S k)
  /\ shr_r x = Z.odd (m / 2 ^ Z.of_nat k).
Proof.
  intro Hm.
  assert (Hgen : forall j, shr_m (Nat.iter j shr_1 (Build_shr_record m false false))
                           = m / 2 ^ Z.of_nat j).
  { induction j as [|j IHj].
    - simpl. now rewrite Z.div_1_r.
    - rewrite Nat.iter_succ.
      destruct (shr_1_spec (Nat.iter j shr_1 (Build_shr_record m false false)))
        as [E _].
      { rewrite IHj. apply Z.div_pos; [exact Hm|]. apply Z.pow_pos_nonneg; lia. }
      rewrite E, IHj, Nat2Z.inj_succ, Z.pow_succ_r by lia.
      rewrite Z.div_div by (try apply Z.pow_pos_nonneg; lia).
      f_equal. lia. }
  split; [apply Hgen|].
  rewrite Nat.iter_succ.
  destruct (shr_1_spec (Nat.iter k shr_1 (Build_shr_record m false false))) as [_ E].
  { rewrite Hgen. apply Z.div_pos; [exact Hm|]. apply Z.pow_pos_nonneg; lia. }
  now rewrite E, Hgen.
Qed.

(** A mantissa [hi * 2 ^ n + lo] with [lo] below half of [2 ^ n] is rounded
    to [hi]. *)
Lemma round_aux_low (s : bool) (p hi : positive) (n : positive) (lo e : Z) :
  Zpos p = Zpos hi * 2 ^ Zpos n + lo -> 0 <= lo < 2 ^ (Zpos n - 1) ->
  Zpos (digits2_pos hi) = 53 ->
  -1074 <= e + Zpos n <= 971 ->
  binary_round_aux prec emax s (Zpos p) e loc_Exact = S754_finite s hi (e + Zpos n).
Proof.
  intros Hp Hlo Hhi He.
  assert (Hn1 : 2 ^ Zpos n = 2 * 2 ^ (Zpos n - 1)).
  { rewrite <- Z.pow_succ_r by lia. f_equal. lia. }
  assert (Hpow : 0 < 2 ^ (Zpos n - 1)) by (apply Z.pow_pos_nonneg; lia).
  pose proof (pow_digits_le hi) as Hl. pose proof (digits_upper hi) as Hu.
  rewrite Hhi in Hl, Hu.
  assert (Hdp : Zpos (digits2_pos p) = 53 + Zpos n).
  { apply digits_unique. rewrite Hp.
    replace (53 + Zpos n - 1) with (52 + Zpos n) by lia.
    rewrite !Z.pow_add_r by lia. nia. }
  unfold binary_round_aux, shr_fexp. cbn [Zdigits2 shr_record_of_loc].
  rewrite Hdp.
  assert (E : fexp prec emax (53 + Zpos n + e) - e = Zpos n)
    by (unfold fexp, emin, prec, emax; lia).
  rewrite E. cbn [shr]. rewrite iter_pos_nat.
  destruct (Pos.to_nat n) as [|k] eqn:Ek; [lia|].
  destruct (iter_shr_spec (Zpos p) k ltac:(lia)) as [Hm Hr].
  cbv zeta in Hm, Hr.
  assert (Hk : Z.of_nat (S k) = Zpos n) by lia.
  assert (Hk' : Z.of_nat k = Zpos n - 1) by lia.
  rewrite Hk in Hm. rewrite Hk' in Hr.
  assert (Hdiv : Zpos p / 2 ^ Zpos n = Zpos hi).
  { symmetry. apply (Z.div_unique (Zpos p) (2 ^ Zpos n) (Zpos hi) lo); lia. }
  assert (Hodd : Z.odd (Zpos p / 2 ^ (Zpos n - 1)) = false).
  { assert (Zpos p / 2 ^ (Zpos n - 1) = 2 * Zpos hi) as ->.
    { symmetry. apply (Z.div_unique (Zpos p) (2 ^ (Zpos n - 1)) (2 * Zpos hi) lo); nia. }
    now rewrite Z.odd_mul. }
  rewrite Hdiv in Hm. rewrite Hodd in Hr.
  destruct (Nat.iter (S k) shr_1 (Build_shr_record (Zpos p) false false))
    as [m' r' s'] eqn:Ex.
  cbn [shr_m shr_r] in Hm, Hr. subst m' r'.
  assert (Hround : round_nearest_even (Zpos hi)
                     (loc_of_shr_record (Build_shr_record (Zpos hi) false s'))
                   = Zpos hi) by (destruct s'; reflexivity).
  cbn [shr_m]. rewrite Hround. cbn [Zdigits2 shr_record_of_loc]. rewrite Hhi.
  assert (E2 : fexp prec emax (53 + (e + Zpos n)) - (e + Zpos n) = 0)
    by (unfold fexp, emin, prec, emax; lia).
  rewrite E2. cbn [shr shr_m].
  assert (L : (e + Zpos n <=? emax - prec) = true)
    by (apply Z.leb_le; unfold emax, prec; lia).
  now rewrite L.
Qed.

Lemma mul_fifth (a : positive) :
  Zpos (5 * a) < 2 ^ 53 ->
  SFmul prec emax (of_Z (Zpos (5 * a))) point_two = of_Z (Zpos a).
Proof.
  intro Hq.
  assert (Ha : Zpos a < 2 ^ 53) by lia.
  pose proof (digits_bound a Ha) as Hda. pose proof (digits_bound (5 * a) Hq) as Hdq.
  pose proof (digits_pos a) as Hda1. pose proof (digits_pos (5 * a)) as Hdq1.
  rewrite (of_Z_pos _ Hq), (of_Z_pos _ Ha), point_two_bits.
  unfold canonical, SFmul. cbn [xorb].
  set (da := Zpos (digits2_pos a)) in *.
  set (dq := Zpos (digits2_pos (5 * a))) in *.
  set (ka := Z.to_nat (53 - da)). set (kq := Z.to_nat (53 - dq)).
  set (n := Z.to_pos (da + 2 + Z.of_nat kq)).
  assert (Hn : Zpos n = da + 2 + Z.of_nat kq) by (unfold n; lia).
  rewrite (round_aux_low false _ (shl a ka) n (Zpos a * 2 ^ (Z.of_nat kq + 1))).
  - f_equal. lia.
  - rewrite Pos2Z.inj_mul, !Zpos_shl, Pos2Z.inj_mul, Hn.
    replace (da + 2 + Z.of_nat kq) with (Z.of_nat kq + 55 - Z.of_nat ka) by lia.
    assert (Hsplit : 2 ^ (Z.of_nat kq + 55)
                     = 2 ^ Z.of_nat ka * 2 ^ (Z.of_nat kq + 55 - Z.of_nat ka)).
    { rewrite <- Z.pow_add_r by lia. f_equal. lia. }
    assert (H55 : 2 ^ (Z.of_nat kq + 55) = 2 ^ Z.of_nat kq * 2 ^ 55)
      by (rewrite Z.pow_add_r by lia; reflexivity).
    assert (H1 : 2 ^ (Z.of_nat kq + 1) = 2 ^ Z.of_nat kq * 2)
      by (rewrite Z.pow_add_r by lia; reflexivity).
    rewrite H1.
    transitivity (Zpos a * 2 ^ (Z.of_nat kq + 55) + Zpos a * (2 ^ Z.of_nat kq * 2)).
    + rewrite H55. change (2 ^ 55) with 36028797018963968. lia.
    + rewrite Hsplit. lia.
  - rewrite Hn.
    replace (da + 2 + Z.of_nat kq - 1) with (da + (Z.of_nat kq + 1)) by lia.
    rewrite (Z.pow_add_r 2 da) by lia.
    pose proof (digits_upper a) as Hu. fold da in Hu.
    assert (0 < 2 ^ (Z.of_nat kq + 1)) by (apply Z.pow_pos_nonneg; lia).
    split; [lia|]. apply Z.mul_lt_mono_pos_r; assumption.
  - rewrite digits_shl. fold da. lia.
  - lia.
Qed.

(** *** Comparing two doubles with full mantissas *)

Lemma ltb_full (mx my : positive) (ex ey : Z) :
  Zpos (digits2_pos mx) = 53 -> Zpos (digits2_pos my) = 53 ->
  -1074 <= ex -> -1074 <= ey ->
  (SFltb (S754_finite false mx ex) (S754_finite false my ey) = true
   <-> Zpos mx * 2 ^ (ex + 1074) < Zpos my * 2 ^ (ey + 1074)).
Proof.
  intros Hx Hy Hex Hey.
  pose proof (pow_digits_le mx) as Lx. pose proof (digits_upper mx) as Ux.
  pose proof (pow_digits_le my) as Ly. pose proof (digits_upper my) as Uy.
  rewrite Hx in Lx, Ux. rewrite Hy in Ly, Uy.
  change (2 ^ (53 - 1)) with 4503599627370496 in Lx, Ly.
  change (2 ^ 53) with 9007199254740992 in Ux, Uy.
  unfold SFltb, SFcompare.
  destruct (Z.compare_spec ex ey) as [E | E | E].
  - subst ey. rewrite Pos.compare_cont_spec. cbn [Pos.switch_Eq].
    assert (Hp : 0 < 2 ^ (ex + 1074)) by (apply Z.pow_pos_nonneg; lia).
    destruct (Pos.compare_spec mx my) as [F | F | F]; split; intro H;
      try discriminate; try reflexivity; try nia.
  - split; [intros _|reflexivity].
    assert (Hs : 2 ^ (ey + 1074) = 2 ^ (ex + 1074) * 2 ^ (ey - ex)).
    { rewrite <- Z.pow_add_r by lia. f_equal. lia. }
    assert (Hp : 0 < 2 ^ (ex + 1074)) by (apply Z.pow_pos_nonneg; lia).
    assert (H2 : 2 <= 2 ^ (ey - ex)).
    { change 2 with (2 ^ 1) at 1. apply Z.pow_le_mono_r; lia. }
    rewrite Hs. nia.
  - split; [discriminate|]. intro H. exfalso.
    assert (Hs : 2 ^ (ex + 1074) = 2 ^ (ey + 1074) * 2 ^ (ex - ey)).
    { rewrite <- Z.pow_add_r by lia. f_equal. lia. }
    assert (Hp : 0 < 2 ^ (ey + 1074)) by (apply Z.pow_pos_nonneg; lia).
    assert (H2 : 2 <= 2 ^ (ex - ey)).
    { change 2 with (2 ^ 1) at 1. apply Z.pow_le_mono_r; lia. }
    rewrite Hs in H. nia.
Qed.

(** *** Rounding a long mantissa

    The rounded mantissa is the 53 leading digits or one more; when that
    carries into a 54th digit the exponent moves up by one. *)

Lemma round_nearest_cases (m : Z) (l : location) :
  round_nearest_even m l = m \/ round_nearest_even m l = m + 1.
Proof.
  destruct l as [|[| |]]; cbn [round_nearest_even];
    try destruct (Z.even m); auto.
Qed.

Lemma round_aux_bounds (s : bool) (p n : positive) (e : Z) :
  Zpos (digits2_pos p) = 53 + Zpos n ->
  -1074 <= e + Zpos n <= 970 ->
  exists (m' : positive) (e' : Z),
    binary_round_aux prec emax s (Zpos p) e loc_Exact = S754_finite s m' e'
    /\ Zpos (digits2_pos m') = 53
    /\ e + Zpos n <= e' <= e + Zpos n + 1
    /\ Zpos p / 2 ^ Zpos n * 2 ^ (e + Zpos n + 1074)
       <= Zpos m' * 2 ^ (e' + 1074)
       <= (Zpos p / 2 ^ Zpos n + 1) * 2 ^ (e + Zpos n + 1074).
Proof.
  intros Hdp He.
  pose proof (pow_digits_le p) as Lp. pose proof (digits_upper p) as Up.
  rewrite Hdp in Lp, Up.
  replace (53 + Zpos n - 1) with (52 + Zpos n) in Lp by lia.
  rewrite Z.pow_add_r in Lp, Up by lia.
  assert (Hn : 0 < 2 ^ Zpos n) by (apply Z.pow_pos_nonneg; lia).
  set (hi := Zpos p / 2 ^ Zpos n).
  assert (Hlo : 2 ^ 52 <= hi) by (apply Z.div_le_lower_bound; lia).
  assert (Hup : hi < 2 ^ 53) by (apply Z.div_lt_upper_bound; lia).
  set (U := 2 ^ (e + Zpos n + 1074)).
  assert (HU : 0 < U) by (apply Z.pow_pos_nonneg; lia).
  unfold binary_round_aux, shr_fexp. cbn [Zdigits2 shr_record_of_loc].
  rewrite Hdp.
  assert (E : fexp prec emax (53 + Zpos n + e) - e = Zpos n)
    by (unfold fexp, emin, prec, emax; lia).
  rewrite E. cbn [shr]. rewrite iter_pos_nat.
  destruct (Pos.to_nat n) as [|k] eqn:Ek; [lia|].
  destruct (iter_shr_spec (Zpos p) k ltac:(lia)) as [Hm _].
  cbv zeta in Hm.
  replace (Z.of_nat (S k)) with (Zpos n) in Hm by lia.
  fold hi in Hm.
  destruct (Nat.iter (S k) shr_1 (Build_shr_record (Zpos p) false false))
    as [m0 r0 s0].
  cbn [shr_m] in Hm. subst m0. cbn [shr_m].
  set (R := round_nearest_even hi (loc_of_shr_record (Build_shr_record hi r0 s0))).
  assert (HR : R = hi \/ R = hi + 1) by apply round_nearest_cases.
  clearbody R.
  change (2 ^ 52) with 4503599627370496 in Hlo.
  change (2 ^ 53) with 9007199254740992 in Hup.
  destruct (Z_lt_le_dec R 9007199254740992) as [Hsmall | Hbig].
  - destruct R as [|h|h]; try lia.
    assert (Hh : Zpos (digits2_pos h) = 53).
    { apply digits_unique. change (2 ^ (53 - 1)) with 4503599627370496.
      change (2 ^ 53) with 9007199254740992. lia. }
    cbn [Zdigits2 shr_record_of_loc]. rewrite Hh.
    assert (E2 : fexp prec emax (53 + (e + Zpos n)) - (e + Zpos n) = 0)
      by (unfold fexp, emin, prec, emax; lia).
    rewrite E2. cbn [shr shr_m].
    assert (L : (e + Zpos n <=? emax - prec) = true)
      by (apply Z.leb_le; unfold emax, prec; lia).
    rewrite L.
    exists h, (e + Zpos n). fold U.
    split; [reflexivity|]. split; [exact Hh|]. split; [lia|]. nia.
  - assert (ER : R = 9007199254740992) by lia.
    rewrite ER. cbn [shr_record_of_loc].
    change (Zdigits2 9007199254740992) with 54.
    assert (E3 : fexp prec emax (54 + (e + Zpos n)) - (e + Zpos n) = 1)
      by (unfold fexp, emin, prec, emax; lia).
    rewrite E3. cbn [shr iter_pos shr_1 shr_m].
    assert (L : (e + Zpos n + 1 <=? emax - prec) = true)
      by (apply Z.leb_le; unfold emax, prec; lia).
    rewrite L.
    exists 4503599627370496%positive, (e + Zpos n + 1).
    split; [reflexivity|]. split; [reflexivity|]. split; [lia|].
    replace (e + Zpos n + 1 + 1074) with (Z.succ (e + Zpos n + 1074)) by lia.
    rewrite Z.pow_succ_r by lia. fold U. nia.
Qed.

(** *** A whole number against one fifth of a whole number

    [0.2] in double precision is [(2 ^ 55 + 2) / 5] units of [2 ^ -55], a
    little more than a fifth.  For a whole [q] below [2 ^ 52] the excess
    is less than the gap between [q * 0.2] and the nearest whole number, so
    the comparison with a whole [a] comes out as in the integers. *)

Lemma low_stock_whole (a q : positive) :
  Zpos a < 2 ^ 53 -> Zpos q < 2 ^ 52 ->
  (SFltb (of_Z (Zpos a)) (SFmul prec emax (of_Z (Zpos q)) point_two) = true
   <-> 5 * Zpos a < Zpos q).
Proof.
  intros Ha Hq.
  assert (Hq53 : Zpos q < 2 ^ 53).
  { change (2 ^ 52) with 4503599627370496 in Hq.
    change (2 ^ 53) with 9007199254740992. lia. }
  pose proof (digits_bound a Ha) as Hda. pose proof (digits_bound q Hq53) as Hdq.
  pose proof (digits_pos a) as Hda1. pose proof (digits_pos q) as Hdq1.
  assert (Hdq52 : Zpos (digits2_pos q) <= 52).
  { destruct (Z_le_gt_dec (Zpos (digits2_pos q)) 52) as [H | H]; [exact H|].
    exfalso. pose proof (pow_digits_le q) as Hp.
    assert (2 ^ 52 <= 2 ^ (Zpos (digits2_pos q) - 1)) by (apply Z.pow_le_mono_r; lia).
    lia. }
  destruct (Z.eq_dec (5 * Zpos a) (Zpos q)) as [Heq | Hne].
  - assert (Hq' : q = (5 * a)%positive) by lia. subst q.
    rewrite (mul_fifth a Hq53), (of_Z_pos a Ha). unfold canonical.
    rewrite ltb_full; [lia| | |lia|lia]; rewrite digits_shl; lia.
  - rewrite (of_Z_pos a Ha), (of_Z_pos q Hq53), point_two_bits.
    unfold canonical, SFmul. cbn [xorb].
    set (da := Zpos (digits2_pos a)) in *.
    set (dq := Zpos (digits2_pos q)) in *.
    set (ka := Z.to_nat (53 - da)). set (kq := Z.to_nat (53 - dq)).
    set (M := 7205759403792794%positive).
    set (p := (shl q kq * M)%positive).
    assert (Hmq : Zpos (digits2_pos (shl q kq)) = 53) by (rewrite digits_shl; fold dq; lia).
    pose proof (pow_digits_le (shl q kq)) as Lq. pose proof (digits_upper (shl q kq)) as Uq.
    rewrite Hmq in Lq, Uq.
    change (2 ^ (53 - 1)) with 4503599627370496 in Lq.
    change (2 ^ 53) with 9007199254740992 in Uq.
    assert (Hp : Zpos p = Zpos (shl q kq) * 7205759403792794) by reflexivity.
    pose proof (pow_digits_le p) as Lp. pose proof (digits_upper p) as Up.
    set (D := Zpos (digits2_pos p)) in *.
    assert (HD : 105 <= D <= 106).
    { split.
      - destruct (Z_le_gt_dec 105 D) as [H | H]; [exact H|]. exfalso.
        assert (2 ^ D <= 2 ^ 104) by (apply Z.pow_le_mono_r; lia).
        change (2 ^ 104) with (4503599627370496 * 4503599627370496) in *. nia.
      - destruct (Z_le_gt_dec D 106) as [H | H]; [exact H|]. exfalso.
        assert (2 ^ 106 <= 2 ^ (D - 1)) by (apply Z.pow_le_mono_r; lia).
        change (2 ^ 106) with (9007199254740992 * 9007199254740992) in *. nia. }
    set (n := Z.to_pos (D - 53)).
    assert (Hn : Zpos n = D - 53) by (unfold n; lia).
    destruct (round_aux_bounds false p n (dq - 53 + -55))
      as (m' & e' & Hres & Hm' & He' & Hlow & Hhigh).
    { fold D. lia. }
    { lia. }
    rewrite Hres.
    rewrite ltb_full; [| rewrite digits_shl; fold da; lia | exact Hm' | lia | lia].
    (* the powers of two at hand *)
    set (W := 2 ^ 1019).
    assert (HW : 0 < W) by (apply Z.pow_pos_nonneg; lia).
    set (T := 2 ^ (dq - 53 + -55 + 1074)).
    assert (HT : 0 < T) by (apply Z.pow_pos_nonneg; lia).
    set (U := 2 ^ (dq - 53 + -55 + Zpos n + 1074)) in *.
    assert (HU : 0 < U) by (apply Z.pow_pos_nonneg; lia).
    set (V := 2 ^ (- (dq - 53 + -55 + Zpos n))).
    assert (HV : 0 < V) by (apply Z.pow_pos_nonneg; lia).
    assert (I1 : Zpos (shl a ka) * 2 ^ (da - 53 + 1074) = Zpos a * (36028797018963968 * W)).
    { rewrite Zpos_shl, <- Z.mul_assoc, <- Z.pow_add_r by lia. f_equal.
      change 36028797018963968 with (2 ^ 55). unfold W.
      rewrite <- Z.pow_add_r by lia. f_equal. lia. }
    assert (I2 : Zpos p * T = 7205759403792794 * (Zpos q * W)).
    { rewrite Hp, Zpos_shl. unfold T, W.
      replace 1019 with (Z.of_nat kq + (dq - 53 + -55 + 1074)) by lia.
      rewrite (Z.pow_add_r 2 (Z.of_nat kq)) by lia. ring. }
    assert (I3 : U = 2 ^ Zpos n * T).
    { unfold U, T. rewrite <- Z.pow_add_r by lia. f_equal. lia. }
    assert (I4 : U <= 4503599627370496 * W).
    { unfold U, W. change 4503599627370496 with (2 ^ 52).
      rewrite <- Z.pow_add_r by lia. apply Z.pow_le_mono_r; lia. }
    assert (I5 : V * U = 36028797018963968 * W).
    { unfold U, V, W. change 36028797018963968 with (2 ^ 55).
      rewrite <- !Z.pow_add_r by lia. f_equal. lia. }
    assert (H2n : 0 < 2 ^ Zpos n) by (apply Z.pow_pos_nonneg; lia).
    pose proof (Z.mul_div_le (Zpos p) (2 ^ Zpos n) H2n) as Dl.
    pose proof (Z.mul_succ_div_gt (Zpos p) (2 ^ Zpos n) H2n) as Du.
    set (hi := Zpos p / 2 ^ Zpos n) in *.
    assert (P1 : hi * U <= Zpos p * T) by (rewrite I3; nia).
    assert (P2 : Zpos p * T < (hi + 1) * U) by (rewrite I3; nia).
    rewrite I1. rewrite I2 in P1, P2.
    set (val := Zpos m' * 2 ^ (e' + 1074)) in *.
    clearbody W T U V val hi.
    split; intro H.
    + destruct (Z_lt_le_dec (5 * Zpos a) (Zpos q)) as [Hlt | Hge]; [exact Hlt|].
      exfalso.
      assert (Hx : (Zpos q + 1) * W <= 5 * Zpos a * W)
        by (apply Z.mul_le_mono_nonneg_r; lia).
      assert (Hy : Zpos q * W < 4503599627370496 * W)
        by (apply Z.mul_lt_mono_pos_r; [exact HW|];
            change (2 ^ 52) with 4503599627370496 in Hq; exact Hq).
      assert (Hz : hi * U < Zpos a * V * U) by nia.
      apply Z.mul_lt_mono_pos_r in Hz; [|exact HU].
      assert (Hw : (hi + 1) * U <= Zpos a * V * U)
        by (apply Z.mul_le_mono_nonneg_r; lia).
      nia.
    + assert (Hx : (5 * Zpos a + 1) * W <= Zpos q * W)
        by (apply Z.mul_le_mono_nonneg_r; lia).
      nia.
Qed.

Lemma status_whole (a q : Z) :
  - 2 ^ 53 < a < 2 ^ 53 -> 0 <= q < 2 ^ 52 ->
  status_of (of_Z a) (of_Z q)
  = if a <=? 0 then "Out of Stock"
    else if 5 * a <? q then "Low Stock"
    else "Available".
Proof.
  intros Ha Hq. unfold status_of.
  destruct a as [|a|a].
  - reflexivity.
  - rewrite (of_Z_pos a) by lia.
    change (SFleb (canonical false a) zero) with false.
    change (Z.pos a <=? 0) with false. cbv iota.
    destruct q as [|q|q]; [reflexivity| |lia].
    rewrite <- (of_Z_pos a) by lia.
    pose proof (low_stock_whole a q ltac:(lia) ltac:(lia)) as Hlow.
    unfold mul.
    destruct (SFltb (of_Z (Z.pos a)) (SFmul prec emax (of_Z (Z.pos q)) point_two));
      destruct (Z.ltb_spec (5 * Z.pos a) (Z.pos q)) as [H | H]; try reflexivity.
    + exfalso. assert (5 * Z.pos a < Z.pos q) by (now apply Hlow). lia.
    + exfalso. apply Hlow in H. discriminate.
  - rewrite (of_Z_neg a) by lia. reflexivity.
Qed.

(** *** Sums of whole numbers *)

Lemma total_nonneg (amount : Allocation.t -> Z) (l : list Allocation.t) :
  Forall (whole amount) l -> 0 <= total amount l.
Proof.
  induction 1 as [|alloc l [_ Ha] _ IH]; simpl; lia.
Qed.

(** The [reduce] over whole numbers is their sum in the integers. *)
Lemma reduce_whole (amount : Allocation.t -> Z) (l : list Allocation.t) :
  Forall (whole amount) l ->
  forall acc, 0 <= acc -> acc + total amount l < 2 ^ 53 ->
              reduce_quantity l (of_Z acc) = of_Z (acc + total amount l).
Proof.
  induction 1 as [|alloc l [Hc Ha] Hl IH]; intros acc Hacc Hb.
  - simpl. now rewrite Z.add_0_r.
  - pose proof (total_nonneg amount l Hl) as Ht.
    cbn [total fold_right] in Hb |- *. fold (total amount l) in Hb |- *.
    unfold reduce_quantity. cbn [fold_left]. fold (reduce_quantity l).
    fold (counted alloc). rewrite Hc. unfold add.
    rewrite add_of_Z by lia.
    rewrite IH by lia. f_equal. lia.
Qed.

Lemma allocated_whole (amount : Allocation.t -> Z) (r : Resource.t)
      (A : list Allocation.t) :
  Forall (whole amount) (allocations r A) ->
  total amount (allocations r A) < 2 ^ 53 ->
  allocatedQuantity r A = of_Z (total amount (allocations r A)).
Proof.
  intros Hw Hb. unfold allocatedQuantity.
  change zero with (of_Z 0).
  now rewrite (reduce_whole amount _ Hw 0) by lia.
Qed.

Lemma available_whole (amount : Allocation.t -> Z) (r : Resource.t)
      (A : list Allocation.t) (q : Z) :
  Forall (whole amount) (allocations r A) ->
  total amount (allocations r A) < 2 ^ 53 ->
  to_number (Resource.quantity r) = of_Z q -> 0 <= q < 2 ^ 53 ->
  availableQty r A = of_Z (q - total amount (allocations r A)).
Proof.
  intros Hw Hb Hq Hqb. pose proof (total_nonneg amount _ Hw) as Ht.
  unfold availableQty. rewrite (allocated_whole amount r A Hw Hb), Hq.
  unfold sub. apply sub_of_Z; lia.
Qed.

Lemma total_Permutation (amount : Allocation.t -> Z) (l l' : list Allocation.t) :
  Permutation l l' -> total amount l = total amount l'.
Proof.
  induction 1; simpl; lia.
Qed.

Lemma binary64_allocations_Permutation (r : Resource.t) (A B : list Allocation.t) :
  Permutation A B -> Permutation (allocations r A) (allocations r B).
Proof.
  unfold allocations. induction 1 as [|x A B _ IH|x y A|A B C _ IH1 _ IH2]; simpl.
  - constructor.
  - destruct (references r x); [now constructor|exact IH].
  - destruct (references r x), (references r y);
      try apply Permutation_refl. apply perm_swap.
  - eapply Permutation_trans; eauto.
Qed.

End WholeNumbers.





Lemma binary64_le_zero (x : spec_float) :
  SFleb x Binary64.zero = Binary64.nonpositive x.
Proof. destruct x as [s|s| |s m e]; try destruct s; reflexivity. Qed.

Lemma binary64_gt_zero (x : spec_float) :
  SFltb Binary64.zero x = Binary64.is_positive x.
Proof. destruct x as [s|s| |s m e]; try destruct s; reflexivity. Qed.

(** [x < x] is false of every double. *)
Lemma binary64_lt_irrefl (x : spec_float) : SFltb x x = false.
Proof.
  destruct x as [s|s| |s m e]; try destruct s; try reflexivity;
    unfold SFltb, SFcompare; rewrite Z.compare_refl, Pos.compare_cont_refl;
    reflexivity.
Qed.

Lemma binary64_status_cases (a q : spec_float) :
  (SFleb a Binary64.zero = true /\ Binary64.status_of a q = "Out of Stock")
  \/ (SFleb a Binary64.zero = false
      /\ SFltb a (Binary64.mul q Binary64.point_two) = true
      /\ Binary64.status_of a q = "Low Stock")
  \/ (SFleb a Binary64.zero = false
      /\ SFltb a (Binary64.mul q Binary64.point_two) = false
      /\ Binary64.status_of a q = "Available").
Proof.
  unfold Binary64.status_of.
  destruct (SFleb a Binary64.zero); [now left|].
  destruct (SFltb a (Binary64.mul q Binary64.point_two)); [right; left|right; right];
    repeat split.
Qed.

(** C2. The label written to the [status] of an annotated resource is a
    function of its computed [available] and of its [quantity], decided
    first match first: "Out of Stock" exactly when [available <= 0] (a
    zero, a negative number or minus infinity), otherwise "Low Stock"
    exactly when [available < quantity * 0.2], the product rounded as the
    engine rounds it, otherwise "Available".  The labels are distinct, so
    each pair gets one of them, and because the comparison is strict an
    [available] equal to [quantity * 0.2] is never "Low Stock": when it is
    positive the resource is "Available".  For a whole quantity [5 * a]
    below [2 ^ 53] the product [quantity * 0.2] is [a] itself, so [a] of
    [5 * a], exactly 20%, is "Available".  For whole numbers, the quantity
    below [2 ^ 52], rounding changes no label: [available <= 0] is
    "Out of Stock", otherwise [5 * available < quantity] is "Low Stock",
    otherwise "Available", with [available] the quantity minus the sum of
    the allocations counted when those are whole too. *)
Theorem status_banding :
  (forall resource allocationsData,
      Binary64.Resource.status (Binary64.withAvailability allocationsData resource)
      = Binary64.status_of
          (Binary64.availableQty resource allocationsData)
          (Binary64.to_number (Binary64.Resource.quantity resource)))
  /\ (forall a q,
         Binary64.status_of a q = "Out of Stock"
         \/ Binary64.status_of a q = "Low Stock"
         \/ Binary64.status_of a q = "Available")
  /\ (forall a q,
         Binary64.status_of a q = "Out of Stock" <-> SFleb a Binary64.zero = true)
  /\ (forall a q,
         Binary64.status_of a q = "Low Stock" <->
         SFleb a Binary64.zero = false
         /\ SFltb a (Binary64.mul q Binary64.point_two) = true)
  /\ (forall a q,
         Binary64.status_of a q = "Available" <->
         SFleb a Binary64.zero = false
         /\ SFltb a (Binary64.mul q Binary64.point_two) = false)
  /\ (forall a, SFleb a Binary64.zero = Binary64.nonpositive a)
  /\ (forall a q,
         a = Binary64.mul q Binary64.point_two ->
         Binary64.status_of a q <> "Low Stock")
  /\ (forall a q,
         a = Binary64.mul q Binary64.point_two -> Binary64.is_positive a = true ->
         Binary64.status_of a q = "Available")
  /\ (forall resource allocationsData,
         Binary64.availableQty resource allocationsData
         = Binary64.mul (Binary64.to_number (Binary64.Resource.quantity resource))
                        Binary64.point_two ->
         Binary64.is_positive (Binary64.availableQty resource allocationsData) = true ->
         Binary64.Resource.status (Binary64.withAvailability allocationsData resource)
         = "Available")
  /\ (forall a : Z,
         (0 < a)%Z -> (5 * a < 2 ^ 53)%Z ->
         Binary64.mul (Binary64.of_Z (5 * a)) Binary64.point_two = Binary64.of_Z a
         /\ Binary64.status_of (Binary64.of_Z a) (Binary64.of_Z (5 * a)) = "Available")
  /\ (forall a q : Z,
         (- 2 ^ 53 < a < 2 ^ 53)%Z -> (0 <= q < 2 ^ 52)%Z ->
         Binary64.status_of (Binary64.of_Z a) (Binary64.of_Z q)
         = if (a <=? 0)%Z then "Out of Stock"
           else if (5 * a <? q)%Z then "Low Stock"
           else "Available")
  /\ (forall resource allocationsData (amount : Binary64.Allocation.t -> Z) (q : Z),
         Forall (Binary64.whole amount)
                (Binary64.allocations resource allocationsData) ->
         (Binary64.total amount (Binary64.allocations resource allocationsData)
          < 2 ^ 53)%Z ->
         Binary64.to_number (Binary64.Resource.quantity resource) = Binary64.of_Z q ->
         (0 <= q < 2 ^ 52)%Z ->
         Binary64.Resource.status (Binary64.withAvailability allocationsData resource)
         = if (q - Binary64.total amount
                     (Binary64.allocations resource allocationsData) <=? 0)%Z
           then "Out of Stock"
           else if (5 * (q - Binary64.total amount
                               (Binary64.allocations resource allocationsData)) <? q)%Z
                then "Low Stock"
                else "Available").
Proof.
  assert (Hedge : forall a q,
             a = Binary64.mul q Binary64.point_two -> Binary64.is_positive a = true ->
             Binary64.status_of a q = "Available").
  { intros a q Ha Hpos.
    destruct (binary64_status_cases a q)
      as [(H1 & _) | [(_ & H2 & _) | (_ & _ & H3)]].
    - rewrite binary64_le_zero in H1.
      destruct a as [s|s| |s m e]; try destruct s; discriminate.
    - rewrite <- Ha, binary64_lt_irrefl in H2. discriminate.
    - exact H3. }
  split; [reflexivity|].
  split.
  { intros a q.
    destruct (binary64_status_cases a q)
      as [(_ & ->) | [(_ & _ & ->) | (_ & _ & ->)]]; auto. }
  split.
  { intros a q.
    destruct (binary64_status_cases a q)
      as [(H1 & ->) | [(H1 & H2 & ->) | (H1 & H2 & ->)]];
      split; intro H; try reflexivity; try discriminate; congruence. }
  split.
  { intros a q.
    destruct (binary64_status_cases a q)
      as [(H1 & ->) | [(H1 & H2 & ->) | (H1 & H2 & ->)]];
      split; intro H; try reflexivity; try discriminate; try (split; assumption);
        destruct H; congruence. }
  split.
  { intros a q.
    destruct (binary64_status_cases a q)
      as [(H1 & ->) | [(H1 & H2 & ->) | (H1 & H2 & ->)]];
      split; intro H; try reflexivity; try discriminate; try (split; assumption);
        destruct H; congruence. }
  split; [exact binary64_le_zero|].
  split.
  { intros a q Ha.
    destruct (binary64_status_cases a q)
      as [(_ & ->) | [(_ & H2 & _) | (_ & _ & ->)]]; try discriminate.
    rewrite <- Ha, binary64_lt_irrefl in H2. discriminate. }
  split; [exact Hedge|].
  split.
  { intros resource allocationsData Ha Hpos.
    change (Binary64.Resource.status (Binary64.withAvailability allocationsData resource))
      with (Binary64.status_of
              (Binary64.availableQty resource allocationsData)
              (Binary64.to_number (Binary64.Resource.quantity resource))).
    now apply Hedge. }
  split.
  { intros a Ha Hb. destruct a as [|a|a]; try discriminate.
    assert (Hmul : Binary64.mul (Binary64.of_Z (5 * Zpos a)) Binary64.point_two
                   = Binary64.of_Z (Zpos a)) by (apply mul_fifth; exact Hb).
    split; [exact Hmul|].
    apply Hedge; [now symmetry|].
    rewrite of_Z_pos by lia. reflexivity. }
  split; [exact status_whole|].
  intros resource allocationsData amount q Hw Hb Hq Hqb.
  pose proof (total_nonneg amount _ Hw) as Ht.
  assert (Hq53 : (0 <= q < 2 ^ 53)%Z).
  { change (2 ^ 52)%Z with 4503599627370496%Z in Hqb.
    change (2 ^ 53)%Z with 9007199254740992%Z. lia. }
  change (Binary64.Resource.status (Binary64.withAvailability allocationsData resource))
    with (Binary64.status_of
            (Binary64.availableQty resource allocationsData)
            (Binary64.to_number (Binary64.Resource.quantity resource))).
  rewrite (available_whole amount resource allocationsData q Hw Hb Hq Hq53), Hq.
  apply status_whole; [|exact Hqb].
  change (2 ^ 53)%Z with 9007199254740992%Z in *. lia.
Qed.

(** X4. The order in which the allocations were fetched matters only
    through rounding.  When the quantities counted for a resource are whole
    numbers, none negative, with a sum below [2 ^ 53], the annotated
    resource is the same for every order of the allocation list.  Without
    that it need not be: there are lists, one a permutation of the other,
    for which the same resource is offered in one order and left out in the
    other. *)
Theorem allocation_order_and_rounding :
  (forall (r : Binary64.Resource.t) (A B : list Binary64.Allocation.t)
          (amount : Binary64.Allocation.t -> Z),
      Permutation A B ->
      Forall (Binary64.whole amount) (Binary64.allocations r A) ->
      (Binary64.total amount (Binary64.allocations r A) < 2 ^ 53)%Z ->
      Binary64.withAvailability A r = Binary64.withAvailability B r)
  /\ ~ (forall (r : Binary64.Resource.t) (A B : list Binary64.Allocation.t),
           Permutation A B ->
           Binary64.in_stock (Binary64.withAvailability A r)
           = Binary64.in_stock (Binary64.withAvailability B r)).
Proof.
  split.
  - intros r A B amount HP Hw Hb.
    pose proof (binary64_allocations_Permutation r A B HP) as HPa.
    assert (Hw' : Forall (Binary64.whole amount) (Binary64.allocations r B)).
    { rewrite Forall_forall in Hw |- *. intros alloc Hin. apply Hw.
      apply (Permutation_in alloc (Permutation_sym HPa) Hin). }
    assert (Ht : Binary64.total amount (Binary64.allocations r B)
                 = Binary64.total amount (Binary64.allocations r A)).
    { symmetry. now apply total_Permutation. }
    unfold Binary64.withAvailability.
    rewrite (allocated_whole amount r A Hw Hb).
    rewrite (allocated_whole amount r B Hw') by (rewrite Ht; exact Hb).
    now rewrite Ht.
  - intro H.
    specialize (H Binary64.unit_resource Binary64.tenth_first
                  (rev Binary64.tenth_first) (Permutation_rev _)).
    vm_compute in H. discriminate H.
Qed.

(** ** The computation in double precision at work *)

(** [0.1 + 0.2 + 0.7] is [1]: a resource of one unit is left out.  In
    the order [0.7 + 0.2 + 0.1] the sum falls short of [1] by one unit in
    the last place and a resource of one unit is offered. *)
Example rounding_hides_and_offers :
  Binary64.allocatedQuantity Binary64.unit_resource Binary64.tenth_first
  = Binary64.of_Z 1
  /\ Binary64.availableQty Binary64.unit_resource Binary64.tenth_first
     = Binary64.zero
  /\ Binary64.availableResources [Binary64.unit_resource] Binary64.tenth_first = []
  /\ Binary64.availableQty Binary64.unit_resource (rev Binary64.tenth_first)
     = S754_finite false 4503599627370496 (-105)
  /\ map Binary64.Resource.status
         (Binary64.availableResources [Binary64.unit_resource]
                                      (rev Binary64.tenth_first))
     = ["Low Stock"].
Proof. repeat split; vm_compute; reflexivity. Qed.

(** Past [2 ^ 53] whole numbers round too: [2 ^ 53 + 1 + 1] is [2 ^ 53]. *)
Example whole_numbers_past_2_53 :
  Binary64.sum [Binary64.of_Z (2 ^ 53); Binary64.of_Z 1; Binary64.of_Z 1]
  = Binary64.of_Z (2 ^ 53).
Proof. vm_compute. reflexivity. Qed.

(** One fifth of a whole quantity is "Available" and anything less of one
    more is "Low Stock", up to 5000. *)
Example fifth_is_available : Binary64.fifth_is_available_upto 5000 = true.
Proof. vm_compute. reflexivity. Qed.


(** The crane is "Low Stock" with 15 of 100, by the comparisons in double
    precision and by the whole numbers; 20 of 100 is "Available". *)
Lemma status_banding_witness :
  Binary64.Resource.status
    (Binary64.withAvailability Binary64.crane_allocations Binary64.crane)
  = "Low Stock"
  /\ Binary64.status_of (Binary64.of_Z 20) (Binary64.of_Z 100) = "Available"
  /\ Binary64.mul (Binary64.of_Z 100) Binary64.point_two = Binary64.of_Z 20
  /\ Binary64.status_of (Binary64.of_Z 19) (Binary64.of_Z 100) = "Low Stock"
  /\ Binary64.Resource.status
       (Binary64.withAvailability Binary64.crane_allocations Binary64.crane)
     = (if (100 - 85 <=? 0)%Z then "Out of Stock"
        else if (5 * (100 - 85) <? 100)%Z then "Low Stock"
        else "Available").
Proof.
  destruct status_banding
    as (Hrow & _ & _ & Hlow & _ & _ & _ & Hedge & _ & Hfifth & Hwhole & Hrows).
  split; [|split; [|split; [|split]]].
  - rewrite Hrow. apply Hlow. split; reflexivity.
  - apply Hedge; reflexivity.
  - apply (Hfifth 20%Z); reflexivity.
  - apply (Hwhole 19%Z 100%Z); split; reflexivity || discriminate.
  - apply (Hrows Binary64.crane Binary64.crane_allocations Binary64.crane_amount 100%Z).
    + repeat constructor; discriminate.
    + reflexivity.
    + reflexivity.
    + split; [discriminate|reflexivity].
Defined.

(** The crane's allocations, reversed. *)
Lemma allocation_order_and_rounding_witness :
  Permutation Binary64.crane_allocations (rev Binary64.crane_allocations)
  /\ Binary64.withAvailability Binary64.crane_allocations Binary64.crane
     = Binary64.withAvailability (rev Binary64.crane_allocations) Binary64.crane.
Proof.
  assert (HP : Permutation Binary64.crane_allocations (rev Binary64.crane_allocations))
    by apply Permutation_rev.
  split; [exact HP|].
  destruct allocation_order_and_rounding as [Hwhole _].
  apply (Hwhole Binary64.crane Binary64.crane_allocations
                (rev Binary64.crane_allocations) Binary64.crane_amount HP).
  - repeat constructor; discriminate.
  - reflexivity.
Defined.
